(** * ADAM: intelligence and memory pipeline

    A shallow embedding of the entity recogniser, the categoriser, the coach,
    the context retriever, the SQLite store and the orchestrator's update of
    entities and relationships, with the properties of the specification
    settled against it.

    Python [str] values are sequences of Unicode code points: a text is a
    [list N], and offsets ([start], [end]) count code points as Python does.
    Literals are written as UTF-8 strings and decoded by [u].

    What the model fixes:
    - case mapping and the classes [\w], [\d], [\s] follow Python on Basic
      Latin and the Latin-1 Supplement; a code point from U+0100 on has no
      case and counts as a letter;
    - scores and confidences, floats in the source, are rationals;
    - [uuid.uuid4()] and [datetime.now()] are read from an oracle, one
      reading per call, and [json] is a parameter of the store;
    - SQLite keeps rows in insertion order, enforces the primary keys that
      [ensure_database] declares and, as by default, no foreign key;
      [ORDER BY] is stable. *)

From Stdlib Require Import List Arith Lia Bool NArith ZArith QArith String Ascii.
From Stdlib Require Import Sorting.Sorted Sorting.Permutation.
From Stdlib Require DecimalString.
Import ListNotations.
Open Scope nat_scope.
Open Scope list_scope.

(** ** Text *)

Module Text.

Definition str := list N.

Definition str_eqb (a b : str) : bool :=
  if list_eq_dec N.eq_dec a b then true else false.

(** UTF-8 decoding of a source literal into code points (1 to 4 byte forms). *)
Fixpoint utf8_decode (bs : list N) : str :=
  match bs with
  | [] => []
  | b0 :: r0 =>
    if (b0 <? 128)%N then b0 :: utf8_decode r0
    else if (b0 <? 224)%N then
      match r0 with
      | b1 :: r1 => ((b0 - 192) * 64 + (b1 - 128))%N :: utf8_decode r1
      | _ => [b0]
      end
    else if (b0 <? 240)%N then
      match r0 with
      | b1 :: b2 :: r2 =>
        ((b0 - 224) * 4096 + (b1 - 128) * 64 + (b2 - 128))%N :: utf8_decode r2
      | _ => [b0]
      end
    else
      match r0 with
      | b1 :: b2 :: b3 :: r3 =>
        ((b0 - 240) * 262144 + (b1 - 128) * 4096 + (b2 - 128) * 64 + (b3 - 128))%N
          :: utf8_decode r3
      | _ => [b0]
      end
  end.

Fixpoint bytes_of_string (s : string) : list N :=
  match s with
  | EmptyString => []
  | String a r => N_of_ascii a :: bytes_of_string r
  end.

Definition u (s : string) : str := utf8_decode (bytes_of_string s).

(** [str.lower()] and the simple upper-case mapping, on Basic Latin and the
    Latin-1 Supplement; code points from U+0100 on are left as they are. *)
Definition lower_cp (c : N) : N :=
  if ((65 <=? c) && (c <=? 90))%N then (c + 32)%N
  else if ((192 <=? c) && (c <=? 222) && negb (c =? 215))%N then (c + 32)%N
  else c.

Definition upper_cp (c : N) : N :=
  if ((97 <=? c) && (c <=? 122))%N then (c - 32)%N
  else if ((224 <=? c) && (c <=? 254) && negb (c =? 247))%N then (c - 32)%N
  else if (c =? 255)%N then 376%N
  else if (c =? 181)%N then 924%N
  else c.

Definition lower (s : str) : str := map lower_cp s.

(** [s[a:b]] for [0 <= a], [0 <= b]. *)
Definition slice (s : str) (a b : nat) : str := skipn a (firstn b s).

Fixpoint starts_with (p s : str) : bool :=
  match p, s with
  | [], _ => true
  | c :: p', d :: s' => (c =? d)%N && starts_with p' s'
  | _ :: _, [] => false
  end.

(** [p in s]: substring test. *)
Fixpoint contains (p s : str) : bool :=
  starts_with p s ||
  match s with
  | [] => false
  | _ :: s' => contains p s'
  end.

(** [any(p in s for p in ps)] *)
Definition any_in (ps : list str) (s : str) : bool :=
  existsb (fun p => contains p s) ps.

(** White space as [str.split()] and [\s] see it (below U+0100). *)
Definition is_space (c : N) : bool :=
  (((9 <=? c) && (c <=? 13)) || ((28 <=? c) && (c <=? 32))
   || (c =? 133) || (c =? 160))%N.

Definition is_digit (c : N) : bool := ((48 <=? c) && (c <=? 57))%N.

(** [\w]: alphanumeric code points and the underscore. Below U+0100 these
    are the ASCII letters and digits, the letters of Latin-1, and its
    superscript digits and fractions (numeric for [str.isalnum]); every code
    point from U+0100 on is taken to be a letter. *)
Definition is_word (c : N) : bool :=
  (is_digit c || ((65 <=? c) && (c <=? 90)) || ((97 <=? c) && (c <=? 122))
   || (c =? 95) || (c =? 170) || (c =? 181) || (c =? 186)
   || (c =? 178) || (c =? 179) || (c =? 185) || ((188 <=? c) && (c <=? 190))
   || ((192 <=? c) && negb (c =? 215) && negb (c =? 247)))%N.

(** [s.split()]: maximal runs of non-space code points. *)
Fixpoint split_ws_aux (s : str) (cur : str) : list str :=
  match s with
  | [] => match cur with [] => [] | _ => [rev cur] end
  | c :: r =>
    if is_space c
    then match cur with
         | [] => split_ws_aux r []
         | _ => rev cur :: split_ws_aux r []
         end
    else split_ws_aux r (c :: cur)
  end.

Definition split_ws (s : str) : list str := split_ws_aux s [].

End Text.
Import Text.

(** ** Regular expressions, as the [re] module runs them

    A backtracking matcher that lists the successes of a pattern at a
    position in priority order (greedy repetition first), so that its first
    element is the match Python's engine finds. Patterns are always compiled
    with [re.IGNORECASE]. *)

Module Re.

Inductive item :=
| Rng (lo hi : N)      (* a-z *)
| One (c : N)          (* a single listed character *)
| Digit                (* \d *)
| Space.               (* \s *)

Inductive re :=
| Eps
| Lit (c : N)
| Cls (neg : bool) (items : list item)
| Seq (a b : re)
| Alt (a b : re)
| Rep (a : re) (lo : nat) (hi : option nat)
| Bnd
| Grp (n : nat) (a : re).

Definition in_rng (lo hi c : N) : bool := ((lo <=? c) && (c <=? hi))%N.

(** A class item under IGNORECASE: the lowered character or its upper-case
    form falls in the item. *)
Definition item_matches (c : N) (i : item) : bool :=
  let l := lower_cp c in
  match i with
  | Rng lo hi => in_rng lo hi l || in_rng lo hi (upper_cp l)
  | One d => (lower_cp d =? l)%N
  | Digit => is_digit c
  | Space => is_space c
  end.

Definition cls_matches (neg : bool) (items : list item) (c : N) : bool :=
  xorb neg (existsb (item_matches c) items).

Definition lit_matches (d c : N) : bool := (lower_cp d =? lower_cp c)%N.

Definition word_at (t : str) (i : nat) : bool :=
  match nth_error t i with Some c => is_word c | None => false end.

(** [\b] at position [pos]. *)
Definition boundary (t : str) (pos : nat) : bool :=
  xorb (match pos with 0 => false | S p => word_at t p end) (word_at t pos).

Definition span := (nat * nat)%type.
Definition caps := list (nat * span).

Definition one_char (t : str) (p : N -> bool) (pos : nat) (cs : caps)
  : list (nat * caps) :=
  match nth_error t pos with
  | Some c => if p c then [(S pos, cs)] else []
  | None => []
  end.

Definition hi_allows (hi : option nat) : bool :=
  match hi with Some 0 => false | _ => true end.

Definition hi_pred (hi : option nat) : option nat :=
  match hi with Some n => Some (pred n) | None => None end.

(** Greedy bounded repetition of [step]: one more iteration is tried before
    stopping, and an iteration must consume input (every repeated pattern of
    this program is a character class). *)
Fixpoint rep_greedy (step : nat -> caps -> list (nat * caps))
  (fuel lo : nat) (hi : option nat) (pos : nat) (cs : caps)
  : list (nat * caps) :=
  match fuel with
  | 0 => []
  | S f =>
    (if hi_allows hi
     then flat_map (fun r : nat * caps =>
                      if pos <? fst r
                      then rep_greedy step f (pred lo) (hi_pred hi) (fst r) (snd r)
                      else [])
                   (step pos cs)
     else [])
    ++ (if lo =? 0 then [(pos, cs)] else [])
  end.

Fixpoint rmatch (t : str) (r : re) (pos : nat) (cs : caps) : list (nat * caps) :=
  match r with
  | Eps => [(pos, cs)]
  | Lit d => one_char t (lit_matches d) pos cs
  | Cls neg items => one_char t (cls_matches neg items) pos cs
  | Seq a b => flat_map (fun r : nat * caps => rmatch t b (fst r) (snd r))
                        (rmatch t a pos cs)
  | Alt a b => rmatch t a pos cs ++ rmatch t b pos cs
  | Rep a lo hi => rep_greedy (rmatch t a) (S (List.length t)) lo hi pos cs
  | Bnd => if boundary t pos then [(pos, cs)] else []
  | Grp n a => map (fun r : nat * caps => (fst r, (n, (pos, fst r)) :: snd r))
                   (rmatch t a pos cs)
  end.

(** A match object: the span of the whole match and of the groups. *)
Record Match := { m_start : nat; m_end : nat; m_groups : caps }.

Definition match_at (t : str) (r : re) (pos : nat) : option Match :=
  match rmatch t r pos [] with
  | (e, cs) :: _ => Some {| m_start := pos; m_end := e; m_groups := cs |}
  | [] => None
  end.

(** [re.finditer]: leftmost matches, left to right, without overlap. None of
    the patterns of this program matches the empty string; after an empty
    match the scan would move on by one position. *)
Fixpoint finditer_from (t : str) (r : re) (fuel pos : nat) : list Match :=
  match fuel with
  | 0 => []
  | S f =>
    if List.length t <? pos then []
    else match match_at t r pos with
         | Some m =>
           m :: finditer_from t r f (if m_end m =? pos then S pos else m_end m)
         | None => finditer_from t r f (S pos)
         end
  end.

Definition finditer (r : re) (t : str) : list Match :=
  finditer_from t r (S (List.length t)) 0.

Fixpoint lookup_group (n : nat) (cs : caps) : option span :=
  match cs with
  | [] => None
  | (k, sp) :: r => if k =? n then Some sp else lookup_group n r
  end.

(** [match.group()] *)
Definition group0 (t : str) (m : Match) : str := slice t (m_start m) (m_end m).

(** [match.group(n)] for a group that took part in the match. *)
Definition group (t : str) (m : Match) (n : nat) : str :=
  match lookup_group n (m_groups m) with
  | Some (a, b) => slice t a b
  | None => []
  end.

(** Pattern combinators. *)
Fixpoint seqs (rs : list re) : re :=
  match rs with
  | [] => Eps
  | [r] => r
  | r :: rest => Seq r (seqs rest)
  end.

Definition lits (s : str) : re := seqs (map Lit s).
Definition plus (r : re) : re := Rep r 1 None.
Definition opt (r : re) : re := Rep r 0 (Some 1).
Definition times (r : re) (n : nat) : re := Rep r n (Some n).
Definition between (r : re) (lo hi : nat) : re := Rep r lo (Some hi).
Definition at_least (r : re) (n : nat) : re := Rep r n None.

(** Where a result of a pattern started at [pos] may end: not before [pos],
    and inside the text when [pos] is. *)
Definition in_bounds (t : str) (pos p' : nat) : Prop :=
  pos <= p' /\ (pos <= List.length t -> p' <= List.length t).

(** The phrase patterns of the special-purpose extractors: a literal phrase
    before or after group 1. *)
Inductive phrase_pattern : re -> Prop :=
| phrase_before (s : str) (g : re) :
    s <> [] -> phrase_pattern (Seq (lits s) (Grp 1 g))
| phrase_after (s : str) (g : re) :
    s <> [] -> phrase_pattern (Seq (Grp 1 g) (lits s)).

Definition AZ : re := Cls false [Rng 65 90].       (* [A-Z] *)
Definition az : re := Cls false [Rng 97 122].      (* [a-z] *)
Definition dg : re := Cls false [Digit].           (* \d *)
Definition Word : re := Seq AZ (plus az).          (* [A-Z][a-z]+ *)
Definition sp : re := Lit 32.

End Re.

Import Re.

(** ** Entities *)

(** An entity dictionary. The recogniser sets every key but ["id"], which
    only a persisted entity carries: [ent_id] is [None] when the key is
    absent. *)
Record Entity := {
  ent_name : str;
  ent_type : string;
  ent_start : nat;
  ent_end : nat;
  ent_confidence : Q;
  ent_metadata : list (string * str);
  ent_id : option string
}.

Definition meta_item_eq_dec (x y : string * str) : {x = y} + {x <> y}.
Proof.
  decide equality; [apply (list_eq_dec N.eq_dec) | apply string_dec].
Defined.

Definition metadata_eqb (a b : list (string * str)) : bool :=
  if list_eq_dec meta_item_eq_dec a b then true else false.

Definition opt_string_eqb (a b : option string) : bool :=
  match a, b with
  | Some x, Some y => String.eqb x y
  | None, None => true
  | _, _ => false
  end.

(** Equality of two entity dictionaries ([==] on dicts). The metadata of a
    recognised entity has at most one key, so comparing it as a list is
    comparing it as a dictionary. *)
Definition entity_eqb (a b : Entity) : bool :=
  str_eqb (ent_name a) (ent_name b)
  && String.eqb (ent_type a) (ent_type b)
  && (ent_start a =? ent_start b)
  && (ent_end a =? ent_end b)
  && Qeq_bool (ent_confidence a) (ent_confidence b)
  && metadata_eqb (ent_metadata a) (ent_metadata b)
  && opt_string_eqb (ent_id a) (ent_id b).

(** [entity.get("id", "")] *)
Definition get_id (e : Entity) : string :=
  match ent_id e with Some i => i | None => EmptyString end.

(** ** EntityRecognizer (intelligence/entity_recognition.py) *)

Module EntityRecognizer.

Definition chr (a : ascii) : N := N_of_ascii a.

(** [self.patterns], in the order of the dictionary. *)
Definition patterns : list (string * list re) :=
  [ ("person"%string,
     [ (* \b[A-Z][a-z]+ [A-Z][a-z]+\b *)
       seqs [Bnd; Word; sp; Word; Bnd];
       (* \b[A-Z][a-z]+\b *)
       seqs [Bnd; Word; Bnd] ]);
    ("date"%string,
     [ (* \b\d{1,2}/\d{1,2}/\d{4}\b *)
       seqs [Bnd; between dg 1 2; Lit (chr "/"); between dg 1 2; Lit (chr "/");
             times dg 4; Bnd];
       (* \b\d{4}-\d{2}-\d{2}\b *)
       seqs [Bnd; times dg 4; Lit (chr "-"); times dg 2; Lit (chr "-");
             times dg 2; Bnd];
       (* \b\d{1,2} de [a-z]+ de \d{4}\b *)
       seqs [Bnd; between dg 1 2; lits (u " de "); plus az; lits (u " de ");
             times dg 4; Bnd];
       (* \b[a-z]+ \d{1,2},? \d{4}\b *)
       seqs [Bnd; plus az; sp; between dg 1 2; opt (Lit (chr ",")); sp;
             times dg 4; Bnd];
       (* \bQ[1-4]\b *)
       seqs [Bnd; Lit (chr "Q"); Cls false [Rng (chr "1") (chr "4")]; Bnd];
       (* \b\d{4}\b *)
       seqs [Bnd; times dg 4; Bnd] ]);
    ("project"%string,
     [ (* \bproyecto [A-Z][a-z]+\b *)
       seqs [Bnd; lits (u "proyecto "); Word; Bnd];
       (* \b[A-Z][A-Z]+\b *)
       seqs [Bnd; AZ; plus AZ; Bnd];
       (* \b[A-Z][a-z]+[A-Z][a-z]+\b *)
       seqs [Bnd; Word; Word; Bnd] ]);
    ("company"%string,
     [ (* \b[A-Z][a-z]+ (Inc|Corp|LLC|Ltd|S\.A\.|S\.A\.S\.)\b *)
       seqs [Bnd; Word; sp;
             Grp 1 (Alt (lits (u "Inc")) (Alt (lits (u "Corp")) (Alt (lits (u "LLC"))
                   (Alt (lits (u "Ltd")) (Alt (lits (u "S.A.")) (lits (u "S.A.S.")))))));
             Bnd];
       (* \b[A-Z][a-z]+ [A-Z][a-z]+ (Company|Corporation|Enterprise)\b *)
       seqs [Bnd; Word; sp; Word; sp;
             Grp 1 (Alt (lits (u "Company")) (Alt (lits (u "Corporation"))
                                                   (lits (u "Enterprise"))));
             Bnd] ]);
    ("url"%string,
     [ (* https?://[^\s]+ *)
       seqs [lits (u "http"); opt (Lit (chr "s")); lits (u "://");
             plus (Cls true [Space])];
       (* www\.[^\s]+ *)
       seqs [lits (u "www."); plus (Cls true [Space])] ]);
    ("email"%string,
     [ (* \b[A-Za-z0-9._%+-]+@[A-Za-z0-9.-]+\.[A-Z|a-z]{2,}\b *)
       seqs [Bnd;
             plus (Cls false [Rng (chr "A") (chr "Z"); Rng (chr "a") (chr "z");
                              Rng (chr "0") (chr "9"); One (chr "."); One (chr "_");
                              One (chr "%"); One (chr "+"); One (chr "-")]);
             Lit (chr "@");
             plus (Cls false [Rng (chr "A") (chr "Z"); Rng (chr "a") (chr "z");
                              Rng (chr "0") (chr "9"); One (chr "."); One (chr "-")]);
             Lit (chr ".");
             at_least (Cls false [Rng (chr "A") (chr "Z"); One (chr "|");
                                  Rng (chr "a") (chr "z")]) 2;
             Bnd] ]);
    ("phone"%string,
     [ (* \b\+?[\d\s\-\(\)]{10,}\b *)
       seqs [Bnd; opt (Lit (chr "+"));
             at_least (Cls false [Digit; Space; One (chr "-"); One (chr "(");
                                  One (chr ")")]) 10;
             Bnd] ]) ].

(** [self.keywords], in the order of the dictionary. *)
Definition keywords : list (string * list str) :=
  [ ("person"%string, map u ["marco"; "maría"; "juan"; "ana"; "pedro"; "lisa"; "carlos"]%string);
    ("project"%string, map u ["finops"; "devops"; "frontend"; "backend"; "api"; "database"]%string);
    ("company"%string, map u ["google"; "microsoft"; "apple"; "amazon"; "meta"]%string);
    ("event"%string, map u ["reunión"; "meeting"; "conferencia"; "presentación"; "demo"]%string);
    ("task"%string, map u ["tarea"; "task"; "trabajo"; "proyecto"; "desarrollo"]%string) ].

(** The entity built from a whole match: [name = match.group()]. *)
Definition entity_of_match (text : str) (ty : string) (conf : Q) (m : Match) : Entity :=
  {| ent_name := group0 text m; ent_type := ty;
     ent_start := m_start m; ent_end := m_end m;
     ent_confidence := conf; ent_metadata := []; ent_id := None |}.

(** The entity built from group 1 of a phrase match: [name = match.group(1)],
    [start] and [end] those of the phrase. *)
Definition entity_of_group (text : str) (ty : string) (conf : Q)
  (ctx : string) (m : Match) : Entity :=
  {| ent_name := group text m 1; ent_type := ty;
     ent_start := m_start m; ent_end := m_end m;
     ent_confidence := conf; ent_metadata := [("context"%string, u ctx)];
     ent_id := None |}.

(** First loop of [extract_entities]: the regular expressions. *)
Definition regex_entities (text : str) : list Entity :=
  flat_map (fun tp : string * list re =>
    flat_map (fun pattern =>
      map (entity_of_match text (fst tp) (8 # 10)) (finditer pattern text))
      (snd tp))
    patterns.

(** [r"\b" + re.escape(keyword) + r"\b"] *)
Definition keyword_pattern (keyword : str) : re := seqs [Bnd; lits keyword; Bnd].

(** Second loop of [extract_entities]: the keywords. *)
Definition keyword_entities (text : str) : list Entity :=
  let text_lower := lower text in
  flat_map (fun tk : string * list str =>
    flat_map (fun keyword =>
      if contains keyword text_lower
      then map (entity_of_match text (fst tk) (9 # 10))
               (finditer (keyword_pattern keyword) text)
      else [])
      (snd tk))
    keywords.

Definition birthday_patterns : list re :=
  [ (* cumpleaños de ([A-Z][a-z]+) *)
    Seq (lits (u "cumpleaños de ")) (Grp 1 Word);
    (* birthday of ([A-Z][a-z]+) *)
    Seq (lits (u "birthday of ")) (Grp 1 Word);
    (* ([A-Z][a-z]+) cumple años *)
    Seq (Grp 1 Word) (lits (u " cumple años")) ].

Definition deadline_patterns : list re :=
  [ (* deadline ([a-z]+ \d{1,2}) *)
    Seq (lits (u "deadline ")) (Grp 1 (seqs [plus az; sp; between dg 1 2]));
    (* fecha límite ([a-z]+ \d{1,2}) *)
    Seq (lits (u "fecha límite ")) (Grp 1 (seqs [plus az; sp; between dg 1 2]));
    (* entrega ([a-z]+ \d{1,2}) *)
    Seq (lits (u "entrega ")) (Grp 1 (seqs [plus az; sp; between dg 1 2])) ].

Definition _extract_special_dates (text : str) : list Entity :=
  flat_map (fun pattern =>
    map (entity_of_group text "person" (9 # 10) "birthday") (finditer pattern text))
    birthday_patterns
  ++
  flat_map (fun pattern =>
    map (entity_of_group text "date" (8 # 10) "deadline") (finditer pattern text))
    deadline_patterns.

Definition project_patterns : list re :=
  [ (* proyecto ([A-Z][a-z]+) *)
    Seq (lits (u "proyecto ")) (Grp 1 Word);
    (* project ([A-Z][a-z]+) *)
    Seq (lits (u "project ")) (Grp 1 Word);
    (* ([A-Z][a-z]+) project *)
    Seq (Grp 1 Word) (lits (u " project"));
    (* trabajando en ([A-Z][a-z]+) *)
    Seq (lits (u "trabajando en ")) (Grp 1 Word);
    (* desarrollando ([A-Z][a-z]+) *)
    Seq (lits (u "desarrollando ")) (Grp 1 Word) ].

Definition _extract_projects (text : str) : list Entity :=
  flat_map (fun pattern =>
    map (entity_of_group text "project" (8 # 10) "development") (finditer pattern text))
    project_patterns.

(** The key of [_deduplicate_entities]: [(name.lower(), type, start)]. *)
Definition Key := (str * string * nat)%type.

Definition key (e : Entity) : Key := (lower (ent_name e), ent_type e, ent_start e).

Definition key_eqb (a b : Key) : bool :=
  str_eqb (fst (fst a)) (fst (fst b))
  && String.eqb (snd (fst a)) (snd (fst b))
  && (snd a =? snd b).

Definition seen_mem (k : Key) (seen : list Key) : bool := existsb (key_eqb k) seen.

(** The loop of [_deduplicate_entities]: an entity is kept when its key has
    not been seen. *)
Fixpoint unique_from (seen : list Key) (entities : list Entity) : list Entity :=
  match entities with
  | [] => []
  | e :: rest =>
    if seen_mem (key e) seen then unique_from seen rest
    else e :: unique_from (key e :: seen) rest
  end.

(** [list.sort(key=lambda x: x["start"])]: a stable sort. *)
Fixpoint insert_by_start (e : Entity) (l : list Entity) : list Entity :=
  match l with
  | [] => [e]
  | x :: r => if ent_start e <=? ent_start x then e :: l
              else x :: insert_by_start e r
  end.

Fixpoint sort_by_start (l : list Entity) : list Entity :=
  match l with
  | [] => []
  | e :: r => insert_by_start e (sort_by_start r)
  end.

Definition _deduplicate_entities (entities : list Entity) : list Entity :=
  sort_by_start (unique_from [] entities).

(** The candidates, in the order in which [extract_entities] appends them. *)
Definition candidates (text : str) : list Entity :=
  regex_entities text ++ keyword_entities text
  ++ _extract_special_dates text ++ _extract_projects text.

Definition extract_entities (text : str) : list Entity :=
  _deduplicate_entities (candidates text).

End EntityRecognizer.

(** ** Conversations, as [get_conversation_history] returns them *)

(** A row of the [conversations] table. Identifiers and ISO timestamps are
    ASCII and kept as byte strings; free text is kept as code points. *)
Record ConversationRow := {
  c_id : string;
  c_session_id : string;
  c_timestamp : string;
  c_user_message : str;
  c_adam_response : str;
  c_entities_json : option str;
  c_chroma_id : option string
}.

(** [dict(row)] with the ["entities"] key added. *)
Record Conversation := {
  conv_row : ConversationRow;
  conv_entities : list Entity
}.

Definition conv_user_message (c : Conversation) : str := c_user_message (conv_row c).

(** ** ContentCategorizer (intelligence/categorizer.py) *)

Module ContentCategorizer.
Local Open Scope Q_scope.

Record CategoryConfig := { keywords : list str; weight : Q }.

(** [self.categories], in the order of the dictionary. Scores are floats in
    the source; they are exact rationals here. *)
Definition categories : list (string * CategoryConfig) :=
  [ ("work"%string,
     {| keywords := map u
          ["reunión"; "meeting"; "proyecto"; "project"; "trabajo"; "work";
           "deadline"; "fecha límite"; "presentación"; "demo"; "código";
           "desarrollo"; "development"; "api"; "database"; "frontend";
           "backend"; "devops"; "finops"; "presupuesto"; "budget"]%string;
        weight := 1 |});
    ("personal"%string,
     {| keywords := map u
          ["familia"; "family"; "amigos"; "friends"; "cumpleaños"; "birthday";
           "vacaciones"; "vacation"; "casa"; "home"; "hobby"; "pasatiempo"]%string;
        weight := 1 |});
    ("health"%string,
     {| keywords := map u
          ["ejercicio"; "exercise"; "gimnasio"; "gym"; "médico"; "doctor";
           "salud"; "health"; "dieta"; "diet"; "bienestar"; "wellness"]%string;
        weight := 1 |});
    ("learning"%string,
     {| keywords := map u
          ["estudiar"; "study"; "curso"; "course"; "libro"; "book";
           "aprender"; "learn"; "investigación"; "research"; "tutorial"]%string;
        weight := 1 |});
    ("finance"%string,
     {| keywords := map u
          ["dinero"; "money"; "inversión"; "investment"; "ahorro"; "saving";
           "gasto"; "expense"; "presupuesto"; "budget"; "finanzas"; "finance"]%string;
        weight := 1 |});
    ("links"%string,
     {| keywords := map u
          ["http"; "www"; "link"; "url"; "sitio"; "website"; "artículo";
           "article"; "recurso"; "resource"; "documentación"; "docs"]%string;
        weight := 1 |});
    ("tasks"%string,
     {| keywords := map u
          ["tarea"; "task"; "hacer"; "do"; "completar"; "complete";
           "pendiente"; "pending"; "lista"; "list"; "checklist"]%string;
        weight := 1 |});
    ("events"%string,
     {| keywords := map u
          ["evento"; "event"; "conferencia"; "conference"; "seminario";
           "seminar"; "workshop"; "taller"; "cita"; "appointment"]%string;
        weight := 1 |}) ].

Definition str_in (s : str) (l : list str) : bool := existsb (str_eqb s) l.
Definition string_in (s : string) (l : list string) : bool := existsb (String.eqb s) l.

(** The two bonuses one entity adds to [category]. *)
Definition entity_bonus_one (category : string) (entity : Entity) : Q :=
  let entity_type := ent_type entity in
  let entity_name := lower (ent_name entity) in
  (if String.eqb category "work" && string_in entity_type ["project"; "company"]%string
   then 5 # 10
   else if String.eqb category "personal" && String.eqb entity_type "person"
   then 3 # 10
   else if String.eqb category "events" && String.eqb entity_type "date"
   then 2 # 10
   else 0)
  +
  (if String.eqb category "work"
      && str_in entity_name (map u ["finops"; "devops"; "api"]%string)
   then 3 # 10
   else if String.eqb category "personal"
      && str_in entity_name (map u ["maría"; "marco"; "juan"]%string)
   then 2 # 10
   else 0).

Definition _calculate_entity_bonus (category : string) (entities : list Entity) : Q :=
  fold_left (fun bonus entity => bonus + entity_bonus_one category entity) entities 0.

(** The keyword part of a score: the weight once for each keyword present. *)
Definition keyword_score (config : CategoryConfig) (text_lower : str) : Q :=
  fold_left (fun score keyword =>
               if contains keyword text_lower then score + weight config else score)
            (keywords config) 0.

Definition score_of (text_lower : str) (entities : list Entity)
  (cc : string * CategoryConfig) : Q :=
  keyword_score (snd cc) text_lower + _calculate_entity_bonus (fst cc) entities.

(** [scores], in insertion order. *)
Definition scores_of (cats : list (string * CategoryConfig))
  (text : str) (entities : list Entity) : list (string * Q) :=
  let text_lower := lower text in
  map (fun cc => (fst cc, score_of text_lower entities cc)) cats.

(** [max(values)]: the first of the greatest values. *)
Definition max_value (first : Q) (rest : list Q) : Q :=
  fold_left (fun best v => if Qle_bool v best then best else v) rest first.

(** [max(scores, key=scores.get)]: the first key of greatest score. *)
Definition max_key (first : string * Q) (rest : list (string * Q)) : string :=
  fst (fold_left (fun best kv => if Qle_bool (snd kv) (snd best) then best else kv)
                 rest first).

Definition categorize_with (cats : list (string * CategoryConfig))
  (text : str) (entities : list Entity) : string :=
  match scores_of cats text entities with
  | [] => "general"
  | first :: rest =>
    if Qeq_bool (max_value (snd first) (map snd rest)) 0 then "general"
    else max_key first rest
  end.

Definition categorize_content (text : str) (entities : list Entity) : string :=
  categorize_with categories text entities.

End ContentCategorizer.

(** ** Coach (intelligence/coach.py) *)

Module Coach.

Record Insight := {
  i_type : string;
  i_priority : string;
  i_message : str;
  i_suggestion : str;
  i_entity : option str;
  i_pattern : option str;
  i_frequency : option nat
}.

Definition plain (ty pr : string) (msg sug : string) : Insight :=
  {| i_type := ty; i_priority := pr; i_message := u msg; i_suggestion := u sug;
     i_entity := None; i_pattern := None; i_frequency := None |}.

Definition meeting_insight : Insight :=
  plain "follow_up" "medium"
    "¿Te gustaría que programe un recordatorio para hacer seguimiento después de esta reunión?"
    "Agregar recordatorio de seguimiento".

Definition deadline_insight : Insight :=
  plain "reminder" "high"
    "Veo que mencionas un deadline. ¿Quieres que te ayude a organizar las tareas pendientes?"
    "Crear lista de tareas para el deadline".

Definition personal_insight : Insight :=
  plain "reminder" "medium"
    "Información personal importante detectada. ¿Quieres que programe recordatorios anuales?"
    "Configurar recordatorio anual".

Definition _analyze_message_for_insights (user_message : str)
  (entities : list Entity) (relevant_context : list Conversation) : list Insight :=
  let message_lower := lower user_message in
  (if any_in (map u ["reunión"; "meeting"; "call"]%string) message_lower
   then [meeting_insight] else [])
  ++ (if any_in (map u ["deadline"; "fecha límite"; "entrega"]%string) message_lower
      then [deadline_insight] else [])
  ++ (if any_in (map u ["cumpleaños"; "birthday"; "aniversario"]%string) message_lower
      then [personal_insight] else []).

Definition _get_person_context (person_name : str)
  (relevant_context : list Conversation) : list Conversation :=
  filter (fun context =>
            existsb (fun entity => str_eqb (lower (ent_name entity)) (lower person_name))
                    (conv_entities context))
         relevant_context.

Definition person_reminder (entity_name : str) : Insight :=
  {| i_type := "follow_up"; i_priority := "medium";
     i_message := u "¿Cómo estuvo tu última interacción con " ++ entity_name ++ u "?";
     i_suggestion := u "Revisar conversaciones previas con " ++ entity_name;
     i_entity := Some entity_name; i_pattern := None; i_frequency := None |}.

Definition project_reminder (entity_name : str) : Insight :=
  {| i_type := "follow_up"; i_priority := "medium";
     i_message := u "¿Hay actualizaciones sobre el proyecto " ++ entity_name ++ u "?";
     i_suggestion := u "Actualizar estado del proyecto " ++ entity_name;
     i_entity := Some entity_name; i_pattern := None; i_frequency := None |}.

Definition _generate_reminders (entities : list Entity)
  (relevant_context : list Conversation) : list Insight :=
  flat_map (fun entity =>
    let entity_type := ent_type entity in
    let entity_name := ent_name entity in
    if String.eqb entity_type "person" then
      match _get_person_context entity_name relevant_context with
      | [] => []
      | _ :: _ => [person_reminder entity_name]
      end
    else if String.eqb entity_type "project" then [project_reminder entity_name]
    else [])
    entities.

(** The topics of [_analyze_topic_frequency], in the order of the dictionary. *)
Definition topics : list (str * list str) :=
  [ (u "trabajo", map u ["trabajo"; "work"; "proyecto"; "project"]%string);
    (u "personal", map u ["familia"; "family"; "amigos"; "friends"]%string);
    (u "salud", map u ["ejercicio"; "exercise"; "salud"; "health"]%string);
    (u "finanzas", map u ["dinero"; "money"; "presupuesto"; "budget"]%string) ].

(** [d[topic] = d.get(topic, 0) + 1] on a dictionary kept in insertion order. *)
Fixpoint bump (topic : str) (d : list (str * nat)) : list (str * nat) :=
  match d with
  | [] => [(topic, 1)]
  | (k, n) :: r => if str_eqb k topic then (k, S n) :: r else (k, n) :: bump topic r
  end.

Definition _analyze_topic_frequency (relevant_context : list Conversation)
  : list (str * nat) :=
  fold_left (fun topic_frequency context =>
    let message := lower (conv_user_message context) in
    fold_left (fun tf tk =>
                 if any_in (snd tk) message then bump (fst tk) tf else tf)
              topics topic_frequency)
    relevant_context [].

(** [_analyze_time_patterns] returns [None]. *)
Definition _analyze_time_patterns (relevant_context : list Conversation) : option str :=
  None.

Definition pattern_insight (topic : str) (frequency : nat) : Insight :=
  {| i_type := "pattern"; i_priority := "low";
     i_message := u "Veo que " ++ topic ++ u " es un tema recurrente en nuestras conversaciones.";
     i_suggestion := u "¿Te gustaría que profundice en " ++ topic ++ u "?";
     i_entity := None; i_pattern := Some topic; i_frequency := Some frequency |}.

Definition time_insight (time_patterns : str) : Insight :=
  {| i_type := "pattern"; i_priority := "low";
     i_message := u "Detecto que eres más activo en " ++ time_patterns;
     i_suggestion := u "¿Quieres que programe recordatorios para esos horarios?";
     i_entity := None; i_pattern := Some (u "time_activity"); i_frequency := None |}.

Definition _detect_patterns (user_message : str)
  (relevant_context : list Conversation) : list Insight :=
  flat_map (fun tf : str * nat =>
              if 3 <? snd tf then [pattern_insight (fst tf) (snd tf)] else [])
           (_analyze_topic_frequency relevant_context)
  ++ match _analyze_time_patterns relevant_context with
     | Some time_patterns => [time_insight time_patterns]
     | None => []
     end.

Definition organization_suggestion : Insight :=
  plain "organization" "medium"
    "Veo que mencionas varios elementos. ¿Te gustaría que organice esta información?"
    "Crear categorías automáticas".

Definition search_suggestion : Insight :=
  plain "search" "low"
    "Tengo información relacionada. ¿Quieres que busque más contexto?"
    "Buscar información relacionada".

Definition date_suggestion : Insight :=
  plain "reminder" "medium"
    "Detecté fechas importantes. ¿Quieres que configure recordatorios?"
    "Configurar recordatorios de fechas".

Definition _generate_proactive_suggestions (user_message : str)
  (entities : list Entity) (relevant_context : list Conversation) : list Insight :=
  (if 3 <? List.length entities then [organization_suggestion] else [])
  ++ (match relevant_context with [] => [] | _ :: _ => [search_suggestion] end)
  ++ (match filter (fun e => String.eqb (ent_type e) "date") entities with
      | [] => []
      | _ :: _ => [date_suggestion]
      end).

Definition generate_insights (user_message : str) (entities : list Entity)
  (relevant_context : list Conversation) : list Insight :=
  let insights :=
    _analyze_message_for_insights user_message entities relevant_context
    ++ _generate_reminders entities relevant_context
    ++ _detect_patterns user_message relevant_context
    ++ _generate_proactive_suggestions user_message entities relevant_context in
  firstn 5 insights.

End Coach.

(** ** DatabaseManager (storage/database.py) *)

(** The [json] module, as far as the store uses it. *)
Record Json := {
  json_dumps_entities : list Entity -> str;
  json_loads_entities : str -> list Entity;
  json_dumps_metadata : list (string * str) -> str
}.

(** What the process reads from outside: the [n]-th value of
    [str(uuid.uuid4())] and of [datetime.now().isoformat()]. *)
Record Oracle := {
  uuid4 : nat -> string;
  now : nat -> string
}.

Record EntityRow := {
  er_id : string;
  er_name : str;
  er_type : string;
  er_metadata_json : option str;
  er_first_seen : string;
  er_mention_count : Z
}.

Record FileRow := {
  f_id : string;
  f_original_name : str;
  f_stored_path : str;
  f_category : string;
  f_file_hash : string;
  f_metadata_json : option str;
  f_chroma_id : option string
}.

Record RelationshipRow := {
  r_entity1_id : string;
  r_entity2_id : string;
  r_relationship_type : string;
  r_context : option str
}.

(** The four tables, each in row order. *)
Record Store := {
  conversations : list ConversationRow;
  entities : list EntityRow;
  files : list FileRow;
  relationships : list RelationshipRow
}.

(** The store and the count of readings taken from the oracle. *)
Record World := { db : Store; tick : nat }.

(** A call returns, or raises [sqlite3.IntegrityError] (a second row with the
    same primary key) with its transaction rolled back. *)
Inductive result (A : Type) :=
| Ok (a : A) (w : World)
| IntegrityError (w : World).
Arguments Ok {A} a w.
Arguments IntegrityError {A} w.

Definition bind {A B : Type} (r : result A) (k : A -> World -> result B) : result B :=
  match r with
  | Ok a w => k a w
  | IntegrityError w => IntegrityError w
  end.

Definition world_of {A : Type} (r : result A) : World :=
  match r with Ok _ w => w | IntegrityError w => w end.

(** A row of [get_relationships]: [r.*] with the two joined names. *)
Record RelationshipView := {
  rv_row : RelationshipRow;
  rv_entity1_name : str;
  rv_entity2_name : str
}.

Module DatabaseManager.

Section Database.

Variable J : Json.
Variable env : Oracle.

(** [ensure_database] on a new file: the four tables, empty. The
    [relationships] table is created without a primary key and without a
    unique constraint. *)
Definition ensure_database : Store :=
  {| conversations := []; entities := []; files := []; relationships := [] |}.

Definition initial_world : World := {| db := ensure_database; tick := 0 |}.

Definition set_conversations (s : Store) (l : list ConversationRow) : Store :=
  {| conversations := l; entities := entities s; files := files s;
     relationships := relationships s |}.

Definition set_entities (s : Store) (l : list EntityRow) : Store :=
  {| conversations := conversations s; entities := l; files := files s;
     relationships := relationships s |}.

Definition set_files (s : Store) (l : list FileRow) : Store :=
  {| conversations := conversations s; entities := entities s; files := l;
     relationships := relationships s |}.

Definition set_relationships (s : Store) (l : list RelationshipRow) : Store :=
  {| conversations := conversations s; entities := entities s; files := files s;
     relationships := l |}.

Definition advance (w : World) (s : Store) : World :=
  {| db := s; tick := S (tick w) |}.

Definition save_conversation (w : World) (session_id : string)
  (user_message adam_response : str) (ents : option (list Entity))
  (chroma_id : option string) : result string :=
  let conversation_id := uuid4 env (tick w) in
  let timestamp := now env (tick w) in
  let entities_json :=
    match ents with
    | Some (e :: l) => Some (json_dumps_entities J (e :: l))
    | _ => None
    end in
  if existsb (fun c => String.eqb (c_id c) conversation_id) (conversations (db w))
  then IntegrityError (advance w (db w))
  else Ok conversation_id
          (advance w (set_conversations (db w)
             (conversations (db w) ++
              [{| c_id := conversation_id; c_session_id := session_id;
                  c_timestamp := timestamp; c_user_message := user_message;
                  c_adam_response := adam_response;
                  c_entities_json := entities_json;
                  c_chroma_id := chroma_id |}]))).

(** [ORDER BY timestamp DESC], rows of equal timestamp kept in row order. *)
Fixpoint insert_desc (c : ConversationRow) (l : list ConversationRow)
  : list ConversationRow :=
  match l with
  | [] => [c]
  | x :: r => if String.leb (c_timestamp x) (c_timestamp c) then c :: l
              else x :: insert_desc c r
  end.

Fixpoint order_by_timestamp_desc (l : list ConversationRow) : list ConversationRow :=
  match l with
  | [] => []
  | c :: r => insert_desc c (order_by_timestamp_desc r)
  end.

Definition truthy_string (s : option string) : bool :=
  match s with
  | Some (String _ _) => true
  | _ => false
  end.

Definition load_conversation (row : ConversationRow) : Conversation :=
  {| conv_row := row;
     conv_entities :=
       match c_entities_json row with
       | Some (c :: j) => json_loads_entities J (c :: j)
       | _ => []
       end |}.

Definition get_conversation_history (s : Store) (session_id : option string)
  (limit : nat) : list Conversation :=
  let rows :=
    if truthy_string session_id
    then filter (fun c => opt_string_eqb (Some (c_session_id c)) session_id)
                (conversations s)
    else conversations s in
  map load_conversation (firstn limit (order_by_timestamp_desc rows)).

Definition same_name_type (name : str) (entity_type : string) (r : EntityRow) : bool :=
  str_eqb (er_name r) name && String.eqb (er_type r) entity_type.

(** [UPDATE entities SET mention_count = mention_count + 1 WHERE id = ?] *)
Definition bump_mentions (i : string) (l : list EntityRow) : list EntityRow :=
  map (fun r =>
         if String.eqb (er_id r) i
         then {| er_id := er_id r; er_name := er_name r; er_type := er_type r;
                 er_metadata_json := er_metadata_json r;
                 er_first_seen := er_first_seen r;
                 er_mention_count := (er_mention_count r + 1)%Z |}
         else r) l.

Definition metadata_json_of (metadata : option (list (string * str))) : option str :=
  match metadata with
  | Some (kv :: m) => Some (json_dumps_metadata J (kv :: m))
  | _ => None
  end.

Definition save_entity (w : World) (name : str) (entity_type : string)
  (metadata : option (list (string * str))) : result string :=
  let entity_id := uuid4 env (tick w) in
  let metadata_json := metadata_json_of metadata in
  let first_seen := now env (tick w) in
  match find (same_name_type name entity_type) (entities (db w)) with
  | Some existing =>
    Ok (er_id existing)
       (advance w (set_entities (db w) (bump_mentions (er_id existing) (entities (db w)))))
  | None =>
    if existsb (fun r => String.eqb (er_id r) entity_id) (entities (db w))
    then IntegrityError (advance w (db w))
    else Ok entity_id
            (advance w (set_entities (db w)
               (entities (db w) ++
                [{| er_id := entity_id; er_name := name; er_type := entity_type;
                    er_metadata_json := metadata_json;
                    er_first_seen := first_seen;
                    er_mention_count := 1 |}])))
  end.

Definition save_file (w : World) (original_name stored_path : str)
  (category file_hash : string) (metadata : option (list (string * str)))
  (chroma_id : option string) : result string :=
  let file_id := uuid4 env (tick w) in
  if existsb (fun f => String.eqb (f_id f) file_id) (files (db w))
  then IntegrityError (advance w (db w))
  else Ok file_id
          (advance w (set_files (db w)
             (files (db w) ++
              [{| f_id := file_id; f_original_name := original_name;
                  f_stored_path := stored_path; f_category := category;
                  f_file_hash := file_hash;
                  f_metadata_json := metadata_json_of metadata;
                  f_chroma_id := chroma_id |}]))).

(** [INSERT OR REPLACE INTO relationships]: the table has no key that a new
    row could conflict with, so the row is added; the identifiers need not
    be those of stored entities. *)
Definition save_relationship (w : World) (entity1_id entity2_id : string)
  (relationship_type : string) (context : option str) : World :=
  {| db := set_relationships (db w)
       (relationships (db w) ++
        [{| r_entity1_id := entity1_id; r_entity2_id := entity2_id;
            r_relationship_type := relationship_type; r_context := context |}]);
     tick := tick w |}.

(** The two joins and the [WHERE] of [get_relationships]. *)
Definition get_relationships (s : Store) (entity_id : string) : list RelationshipView :=
  flat_map (fun r =>
    if String.eqb (r_entity1_id r) entity_id || String.eqb (r_entity2_id r) entity_id
    then
      flat_map (fun e1 =>
        flat_map (fun e2 =>
          [{| rv_row := r; rv_entity1_name := er_name e1; rv_entity2_name := er_name e2 |}])
          (filter (fun e2 => String.eqb (r_entity2_id r) (er_id e2)) (entities s)))
        (filter (fun e1 => String.eqb (r_entity1_id r) (er_id e1)) (entities s))
    else [])
    (relationships s).

(** The rows of [relationships] with a given triple. *)
Definition rows_of_triple (s : Store) (e1 e2 t : string) : list RelationshipRow :=
  filter (fun r => String.eqb (r_entity1_id r) e1 && String.eqb (r_entity2_id r) e2
                   && String.eqb (r_relationship_type r) t)
         (relationships s).


End Database.

End DatabaseManager.

(** ** MemorySystem (memory/memory_system.py) *)

Module MemorySystem.

Section Memory.

Variable J : Json.

(** [self.max_context] *)
Definition max_context : nat := 10.

Definition mentions (entity_name : str) (conv : Conversation) : bool :=
  existsb (fun conv_entity =>
             str_eqb (lower (ent_name conv_entity)) (lower entity_name))
          (conv_entities conv).

(** The loop over the entities: for each entity with a name, the
    conversations among the 50 latest that mention it. *)
Definition search_by_entities (s : Store) (ents : list Entity) : list Conversation :=
  flat_map (fun entity =>
    let entity_name := ent_name entity in
    match entity_name with
    | [] => []
    | _ :: _ =>
      let conversations := DatabaseManager.get_conversation_history J s None 50 in
      filter (mentions entity_name) conversations
    end)
    ents.

(** [[word.lower() for word in user_message.split() if len(word) > 3]] *)
Definition keywords_of (user_message : str) : list str :=
  map lower (filter (fun word => 3 <? List.length word) (split_ws user_message)).

Definition _search_by_keywords (s : Store) (user_message : str) : list Conversation :=
  let conversations := DatabaseManager.get_conversation_history J s None 20 in
  let keywords := keywords_of user_message in
  filter (fun conv => any_in keywords (lower (conv_user_message conv))) conversations.

Definition get_relevant_context (s : Store) (user_message : str)
  (ents : list Entity) (session_id : option string) : list Conversation :=
  let relevant_context :=
    match search_by_entities s ents with
    | [] => _search_by_keywords s user_message
    | c :: l => c :: l
    end in
  firstn max_context relevant_context.

End Memory.

End MemorySystem.

(** ** ADAM (core/adam.py) *)

Module ADAM.

Section Orchestrator.

Variable J : Json.
Variable env : Oracle.

(** The inner loop of [_update_entities_and_relationships]: a relationship
    from [entity_id] to every other entity of the message. *)
Definition relate_to_others (w : World) (entity_id : string) (entity : Entity)
  (ents : list Entity) (user_message : str) : World :=
  fold_left (fun w' other_entity =>
               if negb (entity_eqb other_entity entity)
               then DatabaseManager.save_relationship w' entity_id (get_id other_entity)
                      "mentioned_together" (Some (firstn 200 user_message))
               else w')
            ents w.

(** The outer loop, over the entities still to be saved. *)
Fixpoint update_loop (w : World) (todo ents : list Entity) (user_message : str)
  : result unit :=
  match todo with
  | [] => Ok tt w
  | entity :: rest =>
    bind (DatabaseManager.save_entity J env w (ent_name entity) (ent_type entity)
            (Some (ent_metadata entity)))
         (fun entity_id w' =>
            update_loop (relate_to_others w' entity_id entity ents user_message)
                        rest ents user_message)
  end.

Definition _update_entities_and_relationships (w : World) (ents : list Entity)
  (user_message : str) : result unit :=
  update_loop w ents ents user_message.

(** [d.setdefault(name, []).append(context)] on a dictionary kept in
    insertion order. *)
Fixpoint add_context (entity_name : str) (context : Conversation)
  (d : list (str * list Conversation)) : list (str * list Conversation) :=
  match d with
  | [] => [(entity_name, [context])]
  | (k, l) :: r =>
    if str_eqb k entity_name then (k, l ++ [context]) :: r
    else (k, l) :: add_context entity_name context r
  end.

Fixpoint join (sep : str) (parts : list str) : str :=
  match parts with
  | [] => []
  | [p] => p
  | p :: r => p ++ sep ++ join sep r
  end.

Definition _build_context_summary (relevant_context : list Conversation)
  (current_entities : list Entity) : str :=
  match relevant_context with
  | [] => []
  | _ :: _ =>
    let entity_contexts :=
      fold_left (fun d context =>
                   fold_left (fun d' entity => add_context (ent_name entity) context d')
                             (conv_entities context) d)
                relevant_context [] in
    let summary_parts :=
      flat_map (fun nc : str * list Conversation =>
        match fst nc with
        | [] => []
        | _ :: _ =>
          (u "Contexto sobre " ++ fst nc ++ u ":")
          :: map (fun ctx => u "- " ++ firstn 100 (conv_user_message ctx) ++ u "...")
                 (firstn 3 (snd nc))
        end)
        entity_contexts in
    join [10%N] summary_parts
  end.

Definition _generate_greeting_response (ents : list Entity) (context_summary : str) : str :=
  match context_summary with
  | _ :: _ =>
    u "¡Hola! Veo que has estado trabajando en temas relacionados. "
      ++ firstn 200 context_summary ++ u "..."
  | [] => u "¡Hola! Soy ADAM, tu asistente de memoria. ¿En qué puedo ayudarte hoy?"
  end.

Definition _generate_memory_response (ents : list Entity) (context_summary : str) : str :=
  let fallback :=
    u "Estoy aquí para recordar todo lo que me compartas. ¿Qué te gustaría que recuerde?" in
  match ents, context_summary with
  | _ :: _, _ :: _ =>
    match filter (fun n => match n with [] => false | _ => true end)
                 (map ent_name ents) with
    | [] => fallback
    | entity_names =>
      u "Sí, recuerdo sobre " ++ join (u ", ") entity_names ++ u ". "
        ++ firstn 300 context_summary ++ u "..."
    end
  | _, _ => fallback
  end.

Definition _generate_storage_response (user_message : str) (category : string) : str :=
  u "Perfecto, he guardado esa información en la categoría '" ++ u category
    ++ u "'. ¿Hay algo más que quieras que recuerde?".

Definition _generate_general_response (user_message : str) (ents : list Entity)
  (context_summary : str) : str :=
  match context_summary with
  | _ :: _ =>
    u "Entiendo. " ++ firstn 200 context_summary
      ++ u "... ¿Hay algo específico sobre esto que te gustaría que recuerde o analice?"
  | [] =>
    u "Interesante. Estoy guardando esta información para futuras referencias. ¿Hay algo más que quieras compartir?"
  end.

Definition _generate_basic_response (user_message : str) (ents : list Entity)
  (context_summary : str) (category : string) : str :=
  let message_lower := lower user_message in
  if any_in (map u ["hola"; "buenos días"; "buenas"]%string) message_lower
  then _generate_greeting_response ents context_summary
  else if any_in (map u ["recordar"; "recordás"; "recuerdas"]%string) message_lower
  then _generate_memory_response ents context_summary
  else if any_in (map u ["guardar"; "save"; "almacenar"]%string) message_lower
  then _generate_storage_response user_message category
  else _generate_general_response user_message ents context_summary.

(** The ["text"] of [_generate_contextual_response]; its ["chroma_id"] is [None]. *)
Definition _generate_contextual_response (user_message : str) (ents : list Entity)
  (relevant_context : list Conversation) (category : string) : str :=
  let context_summary := _build_context_summary relevant_context ents in
  _generate_basic_response user_message ents context_summary category.

Record Reply := {
  response : str;
  reply_session_id : string;
  conversation_id : string;
  reply_entities : list Entity;
  reply_category : string;
  context_used : list Conversation;
  insights : list Coach.Insight;
  timestamp : string
}.

Definition process_message (w : World) (user_message : str)
  (session_id : option string) : result Reply :=
  let sw :=
    if DatabaseManager.truthy_string session_id
    then (match session_id with Some s => s | None => EmptyString end, w)
    else (uuid4 env (tick w), DatabaseManager.advance w (db w)) in
  let session_id := fst sw in
  let w := snd sw in
  let ents := EntityRecognizer.extract_entities user_message in
  let category := ContentCategorizer.categorize_content user_message ents in
  let relevant_context :=
    MemorySystem.get_relevant_context J (db w) user_message ents (Some session_id) in
  let text := _generate_contextual_response user_message ents relevant_context category in
  bind (DatabaseManager.save_conversation J env w session_id user_message text
          (Some ents) None)
       (fun conversation_id w1 =>
  bind (_update_entities_and_relationships w1 ents user_message)
       (fun _ w2 =>
          Ok {| response := text; reply_session_id := session_id;
                conversation_id := conversation_id; reply_entities := ents;
                reply_category := category; context_used := relevant_context;
                insights := Coach.generate_insights user_message ents relevant_context;
                timestamp := now env (tick w2) |}
             (DatabaseManager.advance w2 (db w2)))).

End Orchestrator.

End ADAM.

(** * The rest of the pipeline

    The functions of the same files that the claims do not reach. *)

(** ** EntityRecognizer.get_entity_statistics *)

Module EntityStatistics.






End EntityStatistics.

(** ** ContentCategorizer: subcategories, paths and taxonomy updates *)

Module CategorizerPaths.

(** [self.subcategories], in the order of the dictionaries. *)
Definition subcategories : list (string * list (string * list str)) :=
  [ ("work"%string,
     [ ("development"%string,
        map u ["código"; "programming"; "desarrollo"; "development"]%string);
       ("meetings"%string, map u ["reunión"; "meeting"; "call"; "llamada"]%string);
       ("projects"%string, map u ["proyecto"; "project"; "finops"; "devops"]%string);
       ("planning"%string,
        map u ["planificación"; "planning"; "roadmap"; "estrategia"]%string) ]);
    ("personal"%string,
     [ ("family"%string, map u ["familia"; "family"; "hijos"; "children"]%string);
       ("friends"%string, map u ["amigos"; "friends"; "social"; "sociales"]%string);
       ("hobbies"%string, map u ["hobby"; "pasatiempo"; "interés"; "interest"]%string) ]) ].

(** [d.get(key)] on a dictionary kept as an association list. *)
Fixpoint lookup {A : Type} (k : string) (d : list (string * A)) : option A :=
  match d with
  | [] => None
  | (k', v) :: r => if String.eqb k' k then Some v else lookup k r
  end.

(** The score of a subcategory: the number of its keywords in the text. *)
Definition subcategory_score (text_lower : str) (keywords : list str) : nat :=
  fold_left (fun score keyword => if contains keyword text_lower then score + 1 else score)
            keywords 0.

(** [max(values)] and [max(d, key=d.get)] on natural scores: the first of the
    greatest. *)
Definition max_score (first : nat) (rest : list nat) : nat :=
  fold_left (fun best v => if v <=? best then best else v) rest first.

Definition max_subcategory (first : string * nat) (rest : list (string * nat)) : string :=
  fst (fold_left (fun best kv => if snd kv <=? snd best then best else kv) rest first).

Definition subcategory_scores (subs : list (string * list str)) (text : str)
  : list (string * nat) :=
  let text_lower := lower text in
  map (fun sk => (fst sk, subcategory_score text_lower (snd sk))) subs.

Definition get_subcategory (text : str) (primary_category : string) : option string :=
  match lookup primary_category subcategories with
  | None => None
  | Some subs =>
    match subcategory_scores subs text with
    | [] => None
    | first :: rest =>
      if max_score (snd first) (map snd rest) =? 0 then None
      else Some (max_subcategory first rest)
    end
  end.





(** A category definition as a dictionary: each of the two keys that the
    categoriser reads may be absent. *)
Record PartialConfig := {
  p_keywords : option (list str);
  p_weight : option Q
}.

Definition of_config (c : ContentCategorizer.CategoryConfig) : PartialConfig :=
  {| p_keywords := Some (ContentCategorizer.keywords c);
     p_weight := Some (ContentCategorizer.weight c) |}.

(** [old.update(new)] *)
Definition dict_update (old new : PartialConfig) : PartialConfig :=
  {| p_keywords := match p_keywords new with Some k => Some k | None => p_keywords old end;
     p_weight := match p_weight new with Some w => Some w | None => p_weight old end |}.

(** One step of [update_categories]: a known category is updated where it
    stands, an unknown one is added last. *)
Fixpoint update_category (category : string) (config : PartialConfig)
  (cats : list (string * PartialConfig)) : list (string * PartialConfig) :=
  match cats with
  | [] => [(category, config)]
  | (k, c) :: r =>
    if String.eqb k category then (k, dict_update c config) :: r
    else (k, c) :: update_category category config r
  end.

Definition update_categories (cats new_categories : list (string * PartialConfig))
  : list (string * PartialConfig) :=
  fold_left (fun cs kc => update_category (fst kc) (snd kc) cs) new_categories cats.

(** [get_category_hierarchy]: for each category its keywords, its weight and
    [self.subcategories.get(category, {})]. *)
Definition get_category_hierarchy
  : list (string * (ContentCategorizer.CategoryConfig * list (string * list str))) :=
  map (fun cc =>
         (fst cc, (snd cc,
                   match lookup (fst cc) subcategories with
                   | Some subs => subs
                   | None => []
                   end)))
      ContentCategorizer.categories.

End CategorizerPaths.

(** ** DatabaseManager.get_entities *)

(** [dict(row)] with the ["metadata"] key added. *)
Record EntityView := {
  ev_row : EntityRow;
  ev_metadata : list (string * str)
}.

Module StoreQueries.

Section Queries.

(** [json.loads] on a metadata column. *)
Variable json_loads_metadata : str -> list (string * str).

(** [a] comes no later than [b] under
    [ORDER BY mention_count DESC, first_seen DESC]. *)
Definition ranks_before (a b : EntityRow) : bool :=
  (er_mention_count b <? er_mention_count a)%Z
  || ((er_mention_count b =? er_mention_count a)%Z
      && String.leb (er_first_seen b) (er_first_seen a)).

Fixpoint insert_ranked (e : EntityRow) (l : list EntityRow) : list EntityRow :=
  match l with
  | [] => [e]
  | x :: r => if ranks_before e x then e :: l else x :: insert_ranked e r
  end.

Fixpoint order_by_mentions (l : list EntityRow) : list EntityRow :=
  match l with
  | [] => []
  | e :: r => insert_ranked e (order_by_mentions r)
  end.

Definition load_entity (row : EntityRow) : EntityView :=
  {| ev_row := row;
     ev_metadata :=
       match er_metadata_json row with
       | Some (c :: j) => json_loads_metadata (c :: j)
       | _ => []
       end |}.

Definition get_entities (s : Store) (entity_type : option string) (limit : nat)
  : list EntityView :=
  let rows :=
    if DatabaseManager.truthy_string entity_type
    then filter (fun r => opt_string_eqb (Some (er_type r)) entity_type) (entities s)
    else entities s in
  map load_entity (firstn limit (order_by_mentions rows)).

End Queries.

End StoreQueries.

(** ** MemorySystem and ADAM: the read side *)

Module MemoryQueries.

Section Reads.

Variable J : Json.
Variable json_loads_metadata : str -> list (string * str).

(** [MemorySystem.store_memory] stores nothing and returns a placeholder. *)
Definition store_memory (content : str) (ents : list Entity)
  (metadata : option (list (string * str))) : string := "memory_id_placeholder".


Record MemoryStats := {
  total_conversations : nat;
  total_entities : nat;
  memory_size_mb : nat;
  last_updated : option string
}.

Definition get_memory_stats (s : Store) : MemoryStats :=
  let conversations := DatabaseManager.get_conversation_history J s None 1000 in
  let ents := StoreQueries.get_entities json_loads_metadata s None 1000 in
  {| total_conversations := List.length conversations;
     total_entities := List.length ents;
     memory_size_mb := 0;
     last_updated :=
       match conversations with
       | c :: _ => Some (c_timestamp (conv_row c))
       | [] => None
       end |}.


(** [ADAM._extract_categories]: the loop body is [pass]. *)
Definition _extract_categories (conversations : list Conversation) : list string := [].

(** [str(n)] for an [int]. *)
Definition str_of_int (z : Z) : str :=
  u (DecimalString.NilZero.string_of_int (Z.to_int z)).

Record MemorySummary := {
  recent_conversations : nat;
  top_entities : list EntityView;
  categories_found : list string;
  summary : str
}.

Definition get_memory_summary (s : Store) (session_id : option string) (days : Z)
  : MemorySummary :=
  let conversations := DatabaseManager.get_conversation_history J s session_id 50 in
  let ents := StoreQueries.get_entities json_loads_metadata s None 20 in
  {| recent_conversations := List.length conversations;
     top_entities := firstn 10 ents;
     categories_found := _extract_categories conversations;
     summary :=
       u "En los últimos " ++ str_of_int days ++ u " días, hemos tenido "
         ++ str_of_int (Z.of_nat (List.length conversations))
         ++ u " conversaciones sobre "
         ++ str_of_int (Z.of_nat (List.length ents))
         ++ u " entidades diferentes." |}.

End Reads.

End MemoryQueries.

(** ** Definitions used in the statements *)

(** The three fields by which entity lists are compared. *)
Definition name_type_start (e : Entity) : str * string * nat :=
  (ent_name e, ent_type e, ent_start e).

Definition by_start (a b : Entity) : Prop := ent_start a <= ent_start b.

(** The first candidate with the key of [e]. *)
Definition first_with_key (e : Entity) (l : list Entity) : option Entity :=
  find (fun c => EntityRecognizer.key_eqb (EntityRecognizer.key c) (EntityRecognizer.key e)) l.

(** The writes of the store and the orchestrator's entry point. *)
Inductive Op :=
| OpSaveConversation (session_id : string) (user_message adam_response : str)
    (ents : option (list Entity)) (chroma_id : option string)
| OpSaveEntity (name : str) (entity_type : string)
    (metadata : option (list (string * str)))
| OpSaveFile (original_name stored_path : str) (category file_hash : string)
    (metadata : option (list (string * str))) (chroma_id : option string)
| OpSaveRelationship (entity1_id entity2_id relationship_type : string)
    (context : option str)
| OpProcessMessage (user_message : str) (session_id : option string).

Definition run_op (J : Json) (env : Oracle) (w : World) (o : Op) : World :=
  match o with
  | OpSaveConversation sid um ar es ch =>
    world_of (DatabaseManager.save_conversation J env w sid um ar es ch)
  | OpSaveEntity n t m => world_of (DatabaseManager.save_entity J env w n t m)
  | OpSaveFile on sp c h m ch =>
    world_of (DatabaseManager.save_file J env w on sp c h m ch)
  | OpSaveRelationship a b t c => DatabaseManager.save_relationship w a b t c
  | OpProcessMessage um sid => world_of (ADAM.process_message J env w um sid)
  end.


(** The entity upsert called once for each metadata of [ms], with the same
    name and type. *)
Definition upsert_all (J : Json) (env : Oracle) (w : World) (name : str)
  (entity_type : string) (ms : list (option (list (string * str)))) : World :=
  fold_left (fun w' m => world_of (DatabaseManager.save_entity J env w' name entity_type m))
            ms w.

Definition entity_key (r : EntityRow) : str * string := (er_name r, er_type r).


(** An oracle and a [json] stand-in to run the model on concrete inputs. *)
Definition decimal (n : nat) : string :=
  DecimalString.NilEmpty.string_of_uint (Nat.to_uint n).

Definition demo_oracle : Oracle :=
  {| uuid4 := fun n => ("uuid-" ++ decimal n)%string;
     now := fun n => ("2024-03-15T10:00:" ++ decimal (10 + n))%string |}.

Definition demo_entities : list Entity :=
  [ {| ent_name := u "María"; ent_type := "person"; ent_start := 12; ent_end := 17;
       ent_confidence := 9 # 10; ent_metadata := []; ent_id := None |};
    {| ent_name := u "FinOps"; ent_type := "project"; ent_start := 36; ent_end := 42;
       ent_confidence := 8 # 10; ent_metadata := []; ent_id := None |} ].

Definition demo_json : Json :=
  {| json_dumps_entities := fun _ => u "[{...}, {...}]";
     json_loads_entities := fun _ => demo_entities;
     json_dumps_metadata := fun _ => u "{...}" |}.

(** The scenario of the specification. *)
Definition scenario_message : str :=
  u "Reunión con María sobre el proyecto FinOps el 15/03/2024".





(** The message of the failing run of the relationship update. *)
Definition two_entity_message : str := u "Ana llama a Google".

(** What an entity built from group 1 of a phrase match records. *)
Definition group_entity (text : str) (e : Entity) : Prop :=
  exists pattern m a b,
    In pattern (EntityRecognizer.birthday_patterns
                ++ EntityRecognizer.deadline_patterns
                ++ EntityRecognizer.project_patterns)
    /\ In m (finditer pattern text)
    /\ ent_start e = m_start m /\ ent_end e = m_end m
    /\ lookup_group 1 (m_groups m) = Some (a, b)
    /\ ent_name e = slice text a b
    /\ ent_start e <= a /\ a <= b /\ b <= ent_end e
    /\ ent_end e <= List.length text
    /\ b - a < ent_end e - ent_start e.

(** A row is old, or its second identifier is the ["id"] of an entity of the
    message. *)
Definition old_or_from (w : World) (ents : list Entity) (r : RelationshipRow) : Prop :=
  In r (relationships (db w))
  \/ exists o, In o ents /\ r_entity2_id r = get_id o.

(** A store that already holds one conversation, to run the model on. *)
Definition demo_world : World :=
  world_of (DatabaseManager.save_conversation demo_json demo_oracle
              DatabaseManager.initial_world "s1" (u "hola") (u "¡Hola!") None None).


(** The row that [save_relationship] writes. *)
Definition relationship_row (e1 e2 t : string) (context : option str) : RelationshipRow :=
  {| r_entity1_id := e1; r_entity2_id := e2; r_relationship_type := t;
     r_context := context |}.

(** ** Definitions used in the further statements *)

(** The least number of code points a match of a pattern consumes. *)
Fixpoint min_len (r : re) : nat :=
  match r with
  | Eps => 0
  | Lit _ => 1
  | Cls _ _ => 1
  | Seq a b => min_len a + min_len b
  | Alt a b => Nat.min (min_len a) (min_len b)
  | Rep a lo _ => lo * min_len a
  | Bnd => 0
  | Grp _ a => min_len a
  end.

(** Every pattern that [extract_entities] searches for. *)
Definition searched_patterns : list re :=
  flat_map snd EntityRecognizer.patterns
  ++ map EntityRecognizer.keyword_pattern (flat_map snd EntityRecognizer.keywords)
  ++ EntityRecognizer.birthday_patterns ++ EntityRecognizer.deadline_patterns
  ++ EntityRecognizer.project_patterns.

(** The types, confidences and metadata that the recogniser gives out. *)
Definition recognised_shape (e : Entity) : bool :=
  ContentCategorizer.string_in (ent_type e)
    ["person"; "date"; "project"; "company"; "url"; "email"; "phone";
     "event"; "task"]%string
  && (Qeq_bool (ent_confidence e) (8 # 10) || Qeq_bool (ent_confidence e) (9 # 10))
  && match ent_id e with None => true | Some _ => false end
  && match ent_metadata e with
     | [] => true
     | [(k, v)] =>
       String.eqb k "context"
       && ContentCategorizer.str_in v (map u ["birthday"; "deadline"; "development"]%string)
     | _ => false
     end.



(** The definition of a category after an update with [config]: the keys of
    [config] over those of the old definition, if there was one. *)
Definition merged (old : option CategorizerPaths.PartialConfig)
  (config : CategorizerPaths.PartialConfig) : CategorizerPaths.PartialConfig :=
  match old with
  | Some o => CategorizerPaths.dict_update o config
  | None => config
  end.

(** What every insight looks like, given the number of context items: a type
    and a priority of the fixed lists, and for a pattern insight one of the
    four topics with a frequency above 3 and not above the number of context
    items. *)
Definition well_formed_insight (context_items : nat) (i : Coach.Insight) : bool :=
  ContentCategorizer.string_in (Coach.i_type i)
    ["follow_up"; "reminder"; "pattern"; "organization"; "search"]%string
  && ContentCategorizer.string_in (Coach.i_priority i) ["high"; "medium"; "low"]%string
  && (if String.eqb (Coach.i_type i) "pattern"
      then match Coach.i_pattern i, Coach.i_frequency i with
           | Some topic, Some f =>
             ContentCategorizer.str_in topic (map fst Coach.topics)
             && (3 <? f) && (f <=? context_items)
           | _, _ => false
           end
      else true).

Definition is_project (e : Entity) : bool := String.eqb (ent_type e) "project".

(** Insertion sort by a test [before], as the two [ORDER BY] clauses run it. *)
Section SortBy.

Variable A : Type.
Variable before : A -> A -> bool.

Fixpoint insert_by (e : A) (l : list A) : list A :=
  match l with
  | [] => [e]
  | x :: r => if before e x then e :: l else x :: insert_by e r
  end.

Fixpoint sort_by (l : list A) : list A :=
  match l with
  | [] => []
  | e :: r => insert_by e (sort_by r)
  end.

End SortBy.
Arguments insert_by {A} before e l.
Arguments sort_by {A} before l.

(** [a] is not older than [b]. *)
Definition newer_first (a b : ConversationRow) : bool :=
  String.leb (c_timestamp b) (c_timestamp a).

(** What no operation changes in a row of [entities]. *)
Definition entity_static (r : EntityRow) : string * str * string * option str * string :=
  (er_id r, er_name r, er_type r, er_metadata_json r, er_first_seen r).

Definition entity_kept (r r' : EntityRow) : Prop :=
  entity_static r = entity_static r' /\ (er_mention_count r <= er_mention_count r')%Z.

(** The store [s'] holds all that [s] holds: the rows of [s] come first and
    are unchanged, but for mention counts, which may have grown. *)
Definition extends (s s' : Store) : Prop :=
  (exists added, conversations s' = conversations s ++ added)
  /\ (exists added, files s' = files s ++ added)
  /\ (exists added, relationships s' = relationships s ++ added)
  /\ (exists kept added,
        entities s' = kept ++ added /\ Forall2 entity_kept (entities s) kept).

(** The rows of a session; every row when the session id is [None] or empty. *)
Definition rows_of_session (s : Store) (session_id : option string) : list ConversationRow :=
  match session_id with
  | Some (String a r) =>
    filter (fun c => String.eqb (c_session_id c) (String a r)) (conversations s)
  | _ => conversations s
  end.

(** The rows of a type; every row when the type is [None] or empty. *)
Definition rows_of_type (s : Store) (entity_type : option string) : list EntityRow :=
  match entity_type with
  | Some (String a r) =>
    filter (fun e => String.eqb (er_type e) (String a r)) (entities s)
  | _ => entities s
  end.

Definition relationship_view (r : RelationshipRow) (e1 e2 : EntityRow) : RelationshipView :=
  {| rv_row := r; rv_entity1_name := er_name e1; rv_entity2_name := er_name e2 |}.

(** The store has a row for the entity of this name and type. *)
Definition has_entity (s : Store) (name : str) (entity_type : string) : Prop :=
  exists row, In row (entities s) /\ er_name row = name /\ er_type row = entity_type.

(** The world in which [process_message] saves the conversation: one reading
    of the oracle later when it had to draw a session id. *)
Definition world_at_save (w : World) (session_id : option string) : World :=
  if DatabaseManager.truthy_string session_id then w
  else DatabaseManager.advance w (db w).

(** The session id that [process_message] uses. *)
Definition session_used (env : Oracle) (w : World) (session_id : option string) : string :=
  match session_id with
  | Some (String a r) => String a r
  | _ => uuid4 env (tick w)
  end.

(** * Properties *)

(** ** Equality tests *)

Lemma str_eqb_eq (a b : str) : str_eqb a b = true <-> a = b.
Proof.
  unfold str_eqb. destruct (list_eq_dec N.eq_dec a b); split; congruence.
Qed.

Lemma str_eqb_refl (a : str) : str_eqb a a = true.
Proof. now apply str_eqb_eq. Qed.

Lemma str_eqb_neq (a b : str) : str_eqb a b = false <-> a <> b.
Proof.
  unfold str_eqb. destruct (list_eq_dec N.eq_dec a b); split; congruence.
Qed.

Module RecognizerFacts.
Import EntityRecognizer.

Lemma key_eqb_eq (a b : Key) : key_eqb a b = true <-> a = b.
Proof.
  destruct a as [[n1 t1] s1], b as [[n2 t2] s2]. unfold key_eqb. simpl.
  rewrite !andb_true_iff, str_eqb_eq, String.eqb_eq, Nat.eqb_eq.
  split.
  - intros [[-> ->] ->]. reflexivity.
  - intros H. inversion H. auto.
Qed.

Lemma key_eqb_refl (k : Key) : key_eqb k k = true.
Proof. now apply key_eqb_eq. Qed.

Lemma seen_mem_In (k : Key) (seen : list Key) : seen_mem k seen = true <-> In k seen.
Proof.
  unfold seen_mem. rewrite existsb_exists. split.
  - intros [x [Hin Heq]]. apply key_eqb_eq in Heq. now subst.
  - intros Hin. exists k. split; [assumption | apply key_eqb_refl].
Qed.

Lemma seen_mem_not_In (k : Key) (seen : list Key) :
  seen_mem k seen = false <-> ~ In k seen.
Proof.
  rewrite <- seen_mem_In. destruct (seen_mem k seen); split; congruence.
Qed.

(** *** The loop that keeps the first entity of each key *)

Lemma unique_from_incl (l : list Entity) :
  forall seen e, In e (unique_from seen l) -> In e l.
Proof.
  induction l as [|c rest IH]; simpl; intros seen e H; [assumption|].
  destruct (seen_mem (key c) seen).
  - right. eapply IH; eassumption.
  - destruct H as [-> | H]; [now left | right; eapply IH; eassumption].
Qed.

Lemma unique_from_fresh (l : list Entity) :
  forall seen e, In e (unique_from seen l) -> ~ In (key e) seen.
Proof.
  induction l as [|c rest IH]; simpl; intros seen e H; [contradiction|].
  destruct (seen_mem (key c) seen) eqn:Hc.
  - now apply IH.
  - destruct H as [-> | H].
    + now apply seen_mem_not_In.
    + apply IH in H. intros Hin. apply H. now right.
Qed.

Lemma unique_from_NoDup (l : list Entity) :
  forall seen, NoDup (map key (unique_from seen l)).
Proof.
  induction l as [|c rest IH]; simpl; intros seen; [constructor|].
  destruct (seen_mem (key c) seen); [apply IH|].
  simpl. constructor; [|apply IH].
  intros Hin. apply in_map_iff in Hin. destruct Hin as [e [Hk He]].
  apply unique_from_fresh in He. apply He. left. congruence.
Qed.

Lemma unique_from_first (l : list Entity) :
  forall seen e, In e (unique_from seen l) -> first_with_key e l = Some e.
Proof.
  unfold first_with_key.
  induction l as [|c rest IH]; simpl; intros seen e H; [contradiction|].
  destruct (seen_mem (key c) seen) eqn:Hc.
  - assert (Hne : key_eqb (key c) (key e) = false).
    { destruct (key_eqb (key c) (key e)) eqn:Hk; [|reflexivity].
      apply key_eqb_eq in Hk. apply unique_from_fresh in H.
      apply seen_mem_In in Hc. rewrite Hk in Hc. contradiction. }
    rewrite Hne. eapply IH; eassumption.
  - destruct H as [-> | H].
    + now rewrite key_eqb_refl.
    + assert (Hne : key_eqb (key c) (key e) = false).
      { destruct (key_eqb (key c) (key e)) eqn:Hk; [|reflexivity].
        apply key_eqb_eq in Hk. apply unique_from_fresh in H.
        exfalso. apply H. now left. }
      rewrite Hne. eapply IH; eassumption.
Qed.

Lemma unique_from_complete (l : list Entity) :
  forall seen c, In c l ->
    In (key c) seen \/ exists e, In e (unique_from seen l) /\ key e = key c.
Proof.
  induction l as [|x rest IH]; simpl; intros seen c H; [contradiction|].
  destruct (seen_mem (key x) seen) eqn:Hx.
  - destruct H as [-> | H].
    + left. now apply seen_mem_In.
    + now apply IH.
  - destruct H as [-> | H].
    + right. exists c. split; [now left | reflexivity].
    + destruct (IH (key x :: seen) c H) as [[Hk | Hk] | [e [He Hk]]].
      * right. exists x. split; [now left | assumption].
      * now left.
      * right. exists e. split; [now right | assumption].
Qed.

(** *** The stable sort by start offset *)

Lemma insert_by_start_perm (e : Entity) (l : list Entity) :
  Permutation (insert_by_start e l) (e :: l).
Proof.
  induction l as [|x r IH]; simpl; [reflexivity|].
  destruct (ent_start e <=? ent_start x); [reflexivity|].
  rewrite IH. apply perm_swap.
Qed.

Lemma sort_by_start_perm (l : list Entity) : Permutation (sort_by_start l) l.
Proof.
  induction l as [|e r IH]; simpl; [reflexivity|].
  rewrite insert_by_start_perm. now constructor.
Qed.

Lemma insert_by_start_sorted (e : Entity) (l : list Entity) :
  StronglySorted by_start l -> StronglySorted by_start (insert_by_start e l).
Proof.
  induction l as [|x r IH]; simpl; intros Hs.
  - repeat constructor.
  - destruct (ent_start e <=? ent_start x) eqn:Hle.
    + apply Nat.leb_le in Hle. constructor; [assumption|].
      inversion Hs as [|? ? _ Hall]; subst. constructor; [exact Hle|].
      eapply Forall_impl; [|exact Hall]. unfold by_start. intros; lia.
    + apply Nat.leb_gt in Hle. inversion Hs as [|? ? Hr Hall]; subst.
      constructor; [now apply IH|].
      eapply Permutation_Forall; [symmetry; apply insert_by_start_perm|].
      constructor; [unfold by_start; lia | assumption].
Qed.

Lemma sort_by_start_sorted (l : list Entity) : StronglySorted by_start (sort_by_start l).
Proof.
  induction l as [|e r IH]; simpl; [constructor | now apply insert_by_start_sorted].
Qed.

Lemma deduplicate_In (l : list Entity) (e : Entity) :
  In e (_deduplicate_entities l) <-> In e (unique_from [] l).
Proof.
  unfold _deduplicate_entities. split; intros H.
  - eapply Permutation_in; [apply sort_by_start_perm | exact H].
  - eapply Permutation_in; [symmetry; apply sort_by_start_perm | exact H].
Qed.

Lemma deduplicate_spec (l : list Entity) :
  StronglySorted by_start (_deduplicate_entities l)
  /\ NoDup (map key (_deduplicate_entities l))
  /\ (forall e, In e (_deduplicate_entities l) -> first_with_key e l = Some e)
  /\ (forall c, In c l -> exists e, In e (_deduplicate_entities l) /\ key e = key c).
Proof.
  split; [apply sort_by_start_sorted|].
  split.
  { eapply Permutation_NoDup; [|apply (unique_from_NoDup l [])].
    apply Permutation_map. symmetry. apply sort_by_start_perm. }
  split.
  { intros e He. apply deduplicate_In in He. eapply unique_from_first; eassumption. }
  intros c Hc. destruct (unique_from_complete l [] c Hc) as [[] | [e [He Hk]]].
  exists e. split; [now apply deduplicate_In | assumption].
Qed.

End RecognizerFacts.

(** C6. For every text, the entities returned by [extract_entities] are in
    ascending order of start offset and no two of them share the key
    (lower-cased name, type, start offset); each returned entity is a
    candidate as it was produced, namely the first candidate of its key, so a
    later candidate of the same key is dropped and not merged; and the key of
    every candidate is that of a returned entity. *)
Theorem extract_entities_sorted_first_of_key (text : str) :
  let out := EntityRecognizer.extract_entities text in
  StronglySorted by_start out
  /\ NoDup (map EntityRecognizer.key out)
  /\ (forall e, In e out ->
        first_with_key e (EntityRecognizer.candidates text) = Some e)
  /\ (forall c, In c (EntityRecognizer.candidates text) ->
        exists e, In e out /\ EntityRecognizer.key e = EntityRecognizer.key c).
Proof.
  apply RecognizerFacts.deduplicate_spec.
Qed.

(** ** Substrings *)




(** ** Coach *)

(** C5. For every message, entity list and retrieved context,
    [generate_insights] returns at most 5 insights, and they are the first 5
    elements of the concatenation of the message-triggered insights, the
    entity-triggered reminders, the pattern insights and the proactive
    suggestions, in that order. *)
Theorem generate_insights_first_five
  (user_message : str) (ents : list Entity) (relevant_context : list Conversation) :
  List.length (Coach.generate_insights user_message ents relevant_context) <= 5
  /\ Coach.generate_insights user_message ents relevant_context
     = firstn 5
         (Coach._analyze_message_for_insights user_message ents relevant_context
          ++ Coach._generate_reminders ents relevant_context
          ++ Coach._detect_patterns user_message relevant_context
          ++ Coach._generate_proactive_suggestions user_message ents relevant_context).
Proof.
  split; [|reflexivity].
  unfold Coach.generate_insights. apply firstn_le_length.
Qed.

(** ** Categorizer *)

Module CategorizerFacts.
Import ContentCategorizer.




End CategorizerFacts.


(** ** Store: relationships *)

(** C1. Saving the same triple twice keeps both rows: after
    [save_relationship(e1, e2, t, c1)] and [save_relationship(e1, e2, t, c2)]
    the rows of the triple are the earlier ones followed by a row with
    context [c1] and a row with context [c2]. *)
Theorem save_relationship_twice_keeps_both (w : World) (e1 e2 t : string)
  (c1 c2 : option str) :
  let w' := DatabaseManager.save_relationship
              (DatabaseManager.save_relationship w e1 e2 t c1) e1 e2 t c2 in
  DatabaseManager.rows_of_triple (db w') e1 e2 t
  = DatabaseManager.rows_of_triple (db w) e1 e2 t
    ++ [relationship_row e1 e2 t c1; relationship_row e1 e2 t c2].
Proof.
  unfold DatabaseManager.rows_of_triple, DatabaseManager.save_relationship. simpl.
  rewrite <- app_assoc, filter_app. simpl.
  rewrite !String.eqb_refl. reflexivity.
Qed.

(** ** Store: entities *)

Module StoreFacts.
Import DatabaseManager.

Section WithEnvironment.

Variable J : Json.
Variable env : Oracle.

Lemma same_name_type_eq (name : str) (ty : string) (r : EntityRow) :
  same_name_type name ty r = true <-> entity_key r = (name, ty).
Proof.
  unfold same_name_type, entity_key.
  rewrite andb_true_iff, str_eqb_eq, String.eqb_eq.
  split; [intros [-> ->]; reflexivity | intros H; inversion H; auto].
Qed.








(** *** The invariant of the table *)



Lemma relate_to_others_entities (ents : list Entity) :
  forall (w : World) (i : string) (e : Entity) (msg : str),
    entities (db (ADAM.relate_to_others w i e ents msg)) = entities (db w).
Proof.
  unfold ADAM.relate_to_others.
  induction ents as [|o r IH]; intros w i e msg; cbn [fold_left]; [reflexivity|].
  rewrite IH. destruct (negb (entity_eqb o e)); reflexivity.
Qed.







End WithEnvironment.

End StoreFacts.


(** ** Store: conversations *)

Module ConversationFacts.
Import DatabaseManager.



Lemma id_new (i : string) (l : list ConversationRow) :
  ~ In i (map c_id l) -> existsb (fun c => String.eqb (c_id c) i) l = false.
Proof.
  intros H. destruct (existsb _ l) eqn:He; [|reflexivity].
  apply existsb_exists in He. destruct He as [c [Hin Heq]].
  apply String.eqb_eq in Heq. exfalso. apply H. rewrite <- Heq. now apply in_map.
Qed.



End ConversationFacts.


(** ** Context retrieval *)

Module MemoryFacts.
Import MemorySystem.

Lemma history_length (J : Json) (s : Store) (session_id : option string) (limit : nat) :
  List.length (DatabaseManager.get_conversation_history J s session_id limit) <= limit.
Proof.
  unfold DatabaseManager.get_conversation_history.
  rewrite length_map. apply firstn_le_length.
Qed.



End MemoryFacts.


(** ** The matcher *)

Module ReFacts.

Section Matcher.

Variable t : str.

Lemma in_bounds_refl (pos : nat) : in_bounds t pos pos.
Proof. split; auto. Qed.

Lemma in_bounds_trans (a b c : nat) : in_bounds t a b -> in_bounds t b c -> in_bounds t a c.
Proof. unfold in_bounds. intros [H1 H2] [H3 H4]. split; [lia | auto]. Qed.

Lemma one_char_result (f : N -> bool) (pos : nat) (cs : caps) (r : nat * caps) :
  In r (one_char t f pos cs) -> r = (S pos, cs) /\ pos < List.length t.
Proof.
  unfold one_char. destruct (nth_error t pos) as [c|] eqn:Hn; [|contradiction].
  destruct (f c); [|contradiction]. intros [<- | []]. split; [reflexivity|].
  apply nth_error_Some. congruence.
Qed.

Lemma one_char_bounds (f : N -> bool) (pos : nat) (cs : caps) (r : nat * caps) :
  In r (one_char t f pos cs) -> in_bounds t pos (fst r).
Proof.
  intros H. apply one_char_result in H. destruct H as [-> Hlt]. simpl.
  split; lia.
Qed.

Lemma rep_greedy_bounds (step : nat -> caps -> list (nat * caps)) :
  (forall pos cs r, In r (step pos cs) -> in_bounds t pos (fst r)) ->
  forall fuel lo hi pos cs r,
    In r (rep_greedy step fuel lo hi pos cs) -> in_bounds t pos (fst r).
Proof.
  intros Hstep. induction fuel as [|f IH]; intros lo hi pos cs r H; [contradiction|].
  cbn [rep_greedy] in H. apply in_app_or in H. destruct H as [H | H].
  - destruct (hi_allows hi); [|contradiction].
    apply in_flat_map in H. destruct H as [x [Hx H]].
    destruct (pos <? fst x); [|contradiction].
    eapply in_bounds_trans; [eapply Hstep; eassumption | eapply IH; eassumption].
  - destruct (lo =? 0); [|contradiction]. destruct H as [<- | []].
    apply in_bounds_refl.
Qed.

Lemma rmatch_bounds (r : re) :
  forall pos cs x, In x (rmatch t r pos cs) -> in_bounds t pos (fst x).
Proof.
  induction r as [| d | neg items | a IHa b IHb | a IHa b IHb | a IHa lo hi | | n a IHa];
    intros pos cs x H; cbn [rmatch] in H.
  - destruct H as [<- | []]. apply in_bounds_refl.
  - eapply one_char_bounds; eassumption.
  - eapply one_char_bounds; eassumption.
  - apply in_flat_map in H. destruct H as [y [Hy H]].
    eapply in_bounds_trans; [eapply IHa | eapply IHb]; eassumption.
  - apply in_app_or in H. destruct H as [H | H]; [eapply IHa | eapply IHb]; eassumption.
  - eapply rep_greedy_bounds; [|eassumption]. intros; eapply IHa; eassumption.
  - destruct (boundary t pos); [|contradiction]. destruct H as [<- | []].
    apply in_bounds_refl.
  - apply in_map_iff in H. destruct H as [y [<- Hy]]. simpl. eapply IHa; eassumption.
Qed.

(** A literal phrase consumes its length and captures nothing. *)
Lemma lits_result (s : str) :
  forall pos cs x, In x (rmatch t (lits s) pos cs) -> x = (pos + List.length s, cs).
Proof.
  unfold lits. induction s as [|c s IH]; intros pos cs x H.
  - destruct H as [<- | []]. cbn. now rewrite Nat.add_0_r.
  - destruct s as [|d s].
    + cbn in H. apply one_char_result in H. destruct H as [-> _].
      cbn. f_equal. lia.
    + change (seqs (map Lit (c :: d :: s)))
        with (Seq (Lit c) (seqs (map Lit (d :: s)))) in H.
      cbn [rmatch] in H. apply in_flat_map in H. destruct H as [y [Hy H]].
      apply one_char_result in Hy. destruct Hy as [-> _].
      apply IH in H. rewrite H. cbn [fst snd List.length]. f_equal. lia.
Qed.

(** A phrase followed by the group: the group spans the rest of the match. *)
Lemma phrase_then_group (s : str) (g : re) (pos : nat) (x : nat * caps) :
  In x (rmatch t (Seq (lits s) (Grp 1 g)) pos []) ->
  lookup_group 1 (snd x) = Some (pos + List.length s, fst x)
  /\ pos + List.length s <= fst x.
Proof.
  cbn [rmatch]. intros H. apply in_flat_map in H. destruct H as [y [Hy H]].
  apply lits_result in Hy. subst y. cbn [fst snd] in H.
  apply in_map_iff in H. destruct H as [z [<- Hz]]. cbn [fst snd lookup_group].
  split; [reflexivity|]. apply rmatch_bounds in Hz. apply Hz.
Qed.

(** The group followed by a phrase: the group spans the match less the phrase. *)
Lemma group_then_phrase (s : str) (g : re) (pos : nat) (x : nat * caps) :
  In x (rmatch t (Seq (Grp 1 g) (lits s)) pos []) ->
  exists p1, lookup_group 1 (snd x) = Some (pos, p1)
             /\ fst x = p1 + List.length s /\ pos <= p1.
Proof.
  cbn [rmatch]. intros H. apply in_flat_map in H. destruct H as [y [Hy H]].
  apply in_map_iff in Hy. destruct Hy as [z [<- Hz]]. cbn [fst snd] in H.
  apply lits_result in H. subst x. cbn [fst snd lookup_group].
  exists (fst z). split; [reflexivity|]. split; [reflexivity|].
  apply rmatch_bounds in Hz. apply Hz.
Qed.

(** Every match of [finditer] is the first result of the pattern where it
    starts, and lies inside the text. *)
Lemma finditer_from_match (r : re) (fuel : nat) :
  forall pos m, In m (finditer_from t r fuel pos) ->
    m_start m <= List.length t
    /\ exists rest, rmatch t r (m_start m) [] = (m_end m, m_groups m) :: rest.
Proof.
  induction fuel as [|f IH]; intros pos m H; [contradiction|].
  cbn [finditer_from] in H.
  destruct (List.length t <? pos) eqn:Hlen; [contradiction|].
  apply Nat.ltb_ge in Hlen.
  unfold match_at in H.
  destruct (rmatch t r pos []) as [|[e cs] rest] eqn:Hm.
  - eapply IH; eassumption.
  - destruct H as [<- | H]; [|eapply IH; eassumption].
    cbn. split; [assumption | now exists rest].
Qed.

Lemma finditer_match (r : re) (m : Match) :
  In m (finditer r t) ->
  m_start m <= List.length t
  /\ exists rest, rmatch t r (m_start m) [] = (m_end m, m_groups m) :: rest.
Proof. apply finditer_from_match. Qed.

Lemma finditer_bounds (r : re) (m : Match) :
  In m (finditer r t) -> m_start m <= m_end m /\ m_end m <= List.length t.
Proof.
  intros H. apply finditer_match in H. destruct H as [Hs [rest Hm]].
  assert (Hin : In (m_end m, m_groups m) (rmatch t r (m_start m) []))
    by (rewrite Hm; now left).
  apply rmatch_bounds in Hin. destruct Hin as [H1 H2]. cbn in *. auto.
Qed.

Lemma slice_length (a b : nat) :
  a <= b -> b <= List.length t -> List.length (slice t a b) = b - a.
Proof.
  intros Hab Hb. unfold slice. rewrite length_skipn, length_firstn. lia.
Qed.

End Matcher.

End ReFacts.

(** ** Names and spans of the recognised entities *)

Module SpanFacts.
Import EntityRecognizer.

(** A match of a phrase pattern: group 1 is a strict part of the match. *)
Lemma phrase_match_group (t : str) (r : re) (m : Match) :
  phrase_pattern r -> In m (finditer r t) ->
  exists a b,
    lookup_group 1 (m_groups m) = Some (a, b)
    /\ m_start m <= a /\ a <= b /\ b <= m_end m /\ m_end m <= List.length t
    /\ b - a < m_end m - m_start m.
Proof.
  intros Hr Hm.
  destruct (ReFacts.finditer_bounds t r m Hm) as [Hse Hlen].
  destruct (ReFacts.finditer_match t r m Hm) as [_ [rest Heq]].
  assert (Hin : In (m_end m, m_groups m) (rmatch t r (m_start m) []))
    by (rewrite Heq; now left).
  assert (Hpos : forall s : str, s <> [] -> 0 < List.length s)
    by (intros [|c s] Hs; [contradiction | cbn; lia]).
  destruct Hr as [s g Hs | s g Hs]; apply Hpos in Hs.
  - apply ReFacts.phrase_then_group in Hin. cbn [fst snd] in Hin.
    destruct Hin as [Hg Hle].
    exists (m_start m + List.length s), (m_end m). repeat split; try assumption; lia.
  - apply ReFacts.group_then_phrase in Hin. cbn [fst snd] in Hin.
    destruct Hin as [p1 [Hg [He Hle]]].
    exists (m_start m), p1. repeat split; try assumption; lia.
Qed.

Lemma birthday_patterns_phrases : Forall phrase_pattern birthday_patterns.
Proof. repeat constructor; discriminate. Qed.

Lemma deadline_patterns_phrases : Forall phrase_pattern deadline_patterns.
Proof. repeat constructor; discriminate. Qed.

Lemma project_patterns_phrases : Forall phrase_pattern project_patterns.
Proof. repeat constructor; discriminate. Qed.

Lemma group_entities (text : str) (ty : string) (conf : Q) (ctx : string)
  (pats : list re) (e : Entity) :
  Forall phrase_pattern pats ->
  incl pats (birthday_patterns ++ deadline_patterns ++ project_patterns) ->
  In e (flat_map (fun pattern =>
                    map (entity_of_group text ty conf ctx) (finditer pattern text))
                 pats) ->
  group_entity text e.
Proof.
  intros Hall Hincl H. apply in_flat_map in H. destruct H as [pattern [Hp H]].
  apply in_map_iff in H. destruct H as [m [<- Hm]].
  rewrite Forall_forall in Hall.
  destruct (phrase_match_group text pattern m (Hall _ Hp) Hm)
    as [a [b [Hg [H1 [H2 [H3 [H4 H5]]]]]]].
  exists pattern, m, a, b. cbn [entity_of_group ent_start ent_end ent_name].
  unfold group. rewrite Hg. repeat split; auto.
Qed.

Lemma group_entity_name_differs (text : str) (e : Entity) :
  group_entity text e -> ent_name e <> slice text (ent_start e) (ent_end e).
Proof.
  intros [pattern [m [a [b [_ [_ [_ [_ [_ [Hn [H1 [H2 [H3 [H4 H5]]]]]]]]]]]]]] Heq.
  apply (f_equal (@List.length N)) in Heq.
  rewrite Hn in Heq.
  rewrite !ReFacts.slice_length in Heq; lia.
Qed.

Lemma whole_match_entities (text : str) (e : Entity) :
  In e (regex_entities text ++ keyword_entities text) ->
  ent_name e = slice text (ent_start e) (ent_end e).
Proof.
  intros H. apply in_app_or in H. destruct H as [H | H].
  - unfold regex_entities in H. apply in_flat_map in H. destruct H as [tp [_ H]].
    apply in_flat_map in H. destruct H as [pattern [_ H]].
    apply in_map_iff in H. destruct H as [m [<- _]]. reflexivity.
  - unfold keyword_entities in H. apply in_flat_map in H. destruct H as [tk [_ H]].
    apply in_flat_map in H. destruct H as [keyword [_ H]].
    destruct (contains keyword (lower text)); [|contradiction].
    apply in_map_iff in H. destruct H as [m [<- _]]. reflexivity.
Qed.

End SpanFacts.

(** C10. For every text, an entity of the regular-expression and keyword
    passes has the matched text as its name: [name = text[start:end]]. An
    entity of the special-purpose extractors (birthday and anniversary
    persons, deadline dates, phrase-matched projects) has group 1 of the
    phrase as its name while [start] and [end] delimit the whole phrase;
    the group is a strict part of the phrase, so [name] is not
    [text[start:end]]. *)
Theorem special_entities_name_is_group (text : str) :
  (forall e,
     In e (EntityRecognizer.regex_entities text ++ EntityRecognizer.keyword_entities text) ->
     ent_name e = slice text (ent_start e) (ent_end e))
  /\ (forall e,
        In e (EntityRecognizer._extract_special_dates text
              ++ EntityRecognizer._extract_projects text) ->
        group_entity text e
        /\ ent_name e <> slice text (ent_start e) (ent_end e)).
Proof.
  split; [apply SpanFacts.whole_match_entities|].
  intros e H.
  assert (Hg : group_entity text e).
  { apply in_app_or in H. destruct H as [H | H].
    - unfold EntityRecognizer._extract_special_dates in H.
      apply in_app_or in H. destruct H as [H | H].
      + eapply SpanFacts.group_entities;
          [apply SpanFacts.birthday_patterns_phrases | | exact H].
        apply incl_appl, incl_refl.
      + eapply SpanFacts.group_entities;
          [apply SpanFacts.deadline_patterns_phrases | | exact H].
        apply incl_appr, incl_appl, incl_refl.
    - eapply SpanFacts.group_entities;
        [apply SpanFacts.project_patterns_phrases | | exact H].
      apply incl_appr, incl_appr, incl_refl. }
  split; [exact Hg | now apply SpanFacts.group_entity_name_differs].
Qed.

(** ** The scenario of the specification *)



(** ** Relationships written by the orchestrator *)

Module RelationshipFacts.
Import EntityRecognizer.

(** The recogniser never sets the ["id"] key. *)
Lemma candidates_no_id (text : str) (e : Entity) :
  In e (candidates text) -> ent_id e = None.
Proof.
  unfold candidates, regex_entities, keyword_entities, _extract_special_dates,
    _extract_projects.
  rewrite !in_app_iff, !in_flat_map.
  intros [[tp [_ H]] | [[tk [_ H]] | [[[p [_ H]] | [p [_ H]]] | [p [_ H]]]]].
  - apply in_flat_map in H. destruct H as [pattern [_ H]].
    apply in_map_iff in H. destruct H as [m [<- _]]. reflexivity.
  - apply in_flat_map in H. destruct H as [keyword [_ H]].
    destruct (contains keyword (lower text)); [|contradiction].
    apply in_map_iff in H. destruct H as [m [<- _]]. reflexivity.
  - apply in_map_iff in H. destruct H as [m [<- _]]. reflexivity.
  - apply in_map_iff in H. destruct H as [m [<- _]]. reflexivity.
  - apply in_map_iff in H. destruct H as [m [<- _]]. reflexivity.
Qed.

Lemma extract_entities_no_id (text : str) (e : Entity) :
  In e (extract_entities text) -> get_id e = EmptyString.
Proof.
  intros H. apply RecognizerFacts.deduplicate_In in H.
  apply RecognizerFacts.unique_from_incl in H.
  unfold get_id. now rewrite (candidates_no_id text e H).
Qed.

Section WithEnvironment.

Variable J : Json.
Variable env : Oracle.

Lemma relate_to_others_rows (others : list Entity) :
  forall (w : World) (i : string) (e : Entity) (msg : str) (r : RelationshipRow),
    In r (relationships (db (ADAM.relate_to_others w i e others msg))) ->
    old_or_from w others r.
Proof.
  unfold ADAM.relate_to_others, old_or_from.
  induction others as [|o rest IH]; intros w i e msg r H; cbn [fold_left] in H;
    [now left|].
  apply IH in H. destruct H as [H | [o' [Ho' H]]].
  - destruct (negb (entity_eqb o e)); [|now left].
    cbn in H. apply in_app_or in H. destruct H as [H | [<- | []]]; [now left|].
    right. exists o. split; [now left | reflexivity].
  - right. exists o'. split; [now right | exact H].
Qed.

Lemma save_entity_relationships (w : World) (name : str) (ty : string)
  (m : option (list (string * str))) :
  relationships (db (world_of (DatabaseManager.save_entity J env w name ty m)))
  = relationships (db w).
Proof.
  unfold DatabaseManager.save_entity.
  destruct (find _ _); [reflexivity|]. destruct (existsb _ _); reflexivity.
Qed.

Lemma update_loop_rows (todo ents : list Entity) (msg : str) :
  forall (w : World) (r : RelationshipRow),
    In r (relationships (db (world_of (ADAM.update_loop J env w todo ents msg)))) ->
    old_or_from w ents r.
Proof.
  induction todo as [|e rest IH]; intros w r H; [now left|].
  cbn [ADAM.update_loop] in H.
  pose proof (save_entity_relationships w (ent_name e) (ent_type e)
                (Some (ent_metadata e))) as Hs.
  destruct (DatabaseManager.save_entity J env w (ent_name e) (ent_type e)
              (Some (ent_metadata e))) as [i w' | w']; cbn [bind world_of] in *.
  - apply IH in H. destruct H as [H | H]; [|now right].
    apply relate_to_others_rows in H. destruct H as [H | H]; [|now right].
    left. now rewrite <- Hs.
  - left. now rewrite <- Hs.
Qed.

(** Every relationship that the update writes for a message has the empty
    string as its second identifier. *)
Lemma update_writes_empty_second_id (w : World) (msg : str) (r : RelationshipRow) :
  In r (relationships
          (db (world_of (ADAM._update_entities_and_relationships J env w
                           (extract_entities msg) msg)))) ->
  In r (relationships (db w)) \/ r_entity2_id r = EmptyString.
Proof.
  intros H. apply update_loop_rows in H. destruct H as [H | [o [Ho H]]]; [now left|].
  right. rewrite H. eapply extract_entities_no_id; eassumption.
Qed.

End WithEnvironment.

End RelationshipFacts.

(** C2. Processing a message with several entities on a new store records
    relationships whose second identifier is the empty string and not the
    identifier of a stored entity, and [get_relationships] returns nothing
    for any of the stored entities. *)
Theorem process_message_relationships_unreachable (J : Json) :
  let w := world_of (ADAM.process_message J demo_oracle DatabaseManager.initial_world
                       two_entity_message None) in
  List.length (entities (db w)) = 8
  /\ List.length (relationships (db w)) = 56
  /\ forallb (fun r => String.eqb (r_entity2_id r) ""
                       && String.eqb (r_relationship_type r) "mentioned_together")
             (relationships (db w)) = true
  /\ forallb (fun row =>
                match DatabaseManager.get_relationships (db w) (er_id row) with
                | [] => true
                | _ :: _ => false
                end)
             (entities (db w)) = true.
Proof.
  vm_compute. repeat split; reflexivity.
Qed.

(** ** The theorems at concrete inputs *)




(** ** Examples *)

(** A birthday phrase: the name is the captured group, the span is the phrase. *)
Example birthday_phrase_entity :
  EntityRecognizer._extract_special_dates (u "El cumpleaños de Ana")
  = [ {| ent_name := u "Ana"; ent_type := "person"; ent_start := 3; ent_end := 20;
         ent_confidence := 9 # 10;
         ent_metadata := [("context"%string, u "birthday")]; ent_id := None |} ]
  /\ slice (u "El cumpleaños de Ana") 3 20 = u "cumpleaños de Ana".
Proof. split; reflexivity. Qed.

(** The same word matched by a pattern, by a keyword and by the project
    phrase: one entity per key, in order of start. *)
Example deduplicated_project :
  map name_type_start
      (filter (fun e => String.eqb (ent_type e) "project")
              (EntityRecognizer.extract_entities (u "proyecto FinOps")))
  = [ (u "proyecto FinOps", "project"%string, 0);
      (u "proyecto", "project"%string, 0);
      (u "FinOps", "project"%string, 0);
      (u "FinOps", "project"%string, 9) ].
Proof. reflexivity. Qed.

(** Two saves of one triple on a new store: two rows. *)
Example relationship_saved_twice :
  relationships
    (db (DatabaseManager.save_relationship
           (DatabaseManager.save_relationship DatabaseManager.initial_world
              "a" "b" "mentioned_together" (Some (u "c1")))
           "a" "b" "mentioned_together" (Some (u "c2"))))
  = [ relationship_row "a" "b" "mentioned_together" (Some (u "c1"));
      relationship_row "a" "b" "mentioned_together" (Some (u "c2")) ].
Proof. reflexivity. Qed.

(** Eleven entity matches are cut to the window of 10. *)
Example context_window_cuts_entity_matches :
  let w := world_of (DatabaseManager.save_conversation demo_json demo_oracle
                       DatabaseManager.initial_world "s1" (u "Reunión con María")
                       (u "Interesante.") (Some demo_entities) None) in
  let query := flat_map (fun _ => firstn 1 demo_entities) (seq 0 11) in
  List.length (MemorySystem.search_by_entities demo_json (db w) query) = 11
  /\ List.length (MemorySystem.get_relevant_context demo_json (db w)
                    (u "María") query None) = 10.
Proof. split; reflexivity. Qed.

(** A second mention with other metadata: one row, count 2, first metadata. *)
Example second_mention_keeps_first_metadata :
  map (fun r => (er_id r, er_mention_count r, er_metadata_json r))
      (entities
         (db (upsert_all demo_json demo_oracle DatabaseManager.initial_world
                (u "Ana") "person"
                [Some [("context"%string, u "birthday")];
                 Some [("context"%string, u "deadline")]])))
  = [ ("uuid-0"%string, 2%Z,
       Some (json_dumps_metadata demo_json [("context"%string, u "birthday")])) ].
Proof. reflexivity. Qed.

(** * Further properties *)

(** ** Lists *)

Lemma In_firstn {A : Type} (n : nat) (l : list A) (x : A) :
  In x (firstn n l) -> In x l.
Proof.
  revert l. induction n as [|n IH]; intros [|y l] H; cbn in H; try contradiction.
  destruct H as [-> | H]; [now left | right; now apply IH].
Qed.

(** ** Recogniser *)

Module MatcherLengths.

Section Lengths.

Variable t : str.

Lemma rep_greedy_min (step : nat -> caps -> list (nat * caps)) (m : nat) :
  (forall pos cs r, In r (step pos cs) -> pos + m <= fst r) ->
  forall fuel lo hi pos cs r,
    In r (rep_greedy step fuel lo hi pos cs) -> pos + lo * m <= fst r.
Proof.
  intros Hstep. induction fuel as [|f IH]; intros lo hi pos cs r H; [contradiction|].
  cbn [rep_greedy] in H. apply in_app_or in H. destruct H as [H | H].
  - destruct (hi_allows hi); [|contradiction].
    apply in_flat_map in H. destruct H as [x [Hx H]].
    destruct (pos <? fst x); [|contradiction].
    apply Hstep in Hx. apply IH in H.
    destruct lo as [|lo]; cbn [pred] in H; lia.
  - destruct (lo =? 0) eqn:Hlo; [|contradiction]. apply Nat.eqb_eq in Hlo.
    destruct H as [<- | []]. subst lo. cbn. lia.
Qed.

Lemma rmatch_min (r : re) :
  forall pos cs x, In x (rmatch t r pos cs) -> pos + min_len r <= fst x.
Proof.
  induction r as [| d | neg items | a IHa b IHb | a IHa b IHb | a IHa lo hi | | n a IHa];
    intros pos cs x H; cbn [rmatch min_len] in *.
  - destruct H as [<- | []]. cbn. lia.
  - apply ReFacts.one_char_result in H. destruct H as [-> _]. cbn. lia.
  - apply ReFacts.one_char_result in H. destruct H as [-> _]. cbn. lia.
  - apply in_flat_map in H. destruct H as [y [Hy H]].
    apply IHa in Hy. apply IHb in H. lia.
  - apply in_app_or in H. destruct H as [H | H]; [apply IHa in H | apply IHb in H]; lia.
  - eapply rep_greedy_min; [|eassumption]. intros; eapply IHa; eassumption.
  - destruct (boundary t pos); [|contradiction]. destruct H as [<- | []]. cbn. lia.
  - apply in_map_iff in H. destruct H as [y [<- Hy]]. cbn. eapply IHa; eassumption.
Qed.

Lemma finditer_nonempty (r : re) (m : Match) :
  1 <= min_len r -> In m (finditer r t) ->
  m_start m < m_end m /\ m_end m <= List.length t.
Proof.
  intros Hmin Hm. split; [|now apply (ReFacts.finditer_bounds t r m)].
  destruct (ReFacts.finditer_match t r m Hm) as [_ [rest Heq]].
  assert (Hin : In (m_end m, m_groups m) (rmatch t r (m_start m) []))
    by (rewrite Heq; now left).
  apply rmatch_min in Hin. cbn in Hin. lia.
Qed.




End Lengths.

End MatcherLengths.

Module RecognizerMore.
Import EntityRecognizer.

(** Every candidate comes from a match of a searched pattern. *)
Lemma candidate_of_match (text : str) (e : Entity) :
  In e (candidates text) ->
  exists pattern m,
    In pattern searched_patterns /\ In m (finditer pattern text)
    /\ ent_start e = m_start m /\ ent_end e = m_end m.
Proof.
  assert (Hfound : forall pattern m,
            In pattern searched_patterns -> In m (finditer pattern text) ->
            ent_start e = m_start m -> ent_end e = m_end m ->
            exists pattern m,
              In pattern searched_patterns /\ In m (finditer pattern text)
              /\ ent_start e = m_start m /\ ent_end e = m_end m)
    by (intros pattern m; exists pattern, m; auto).
  unfold candidates, regex_entities, keyword_entities, _extract_special_dates,
    _extract_projects.
  rewrite !in_app_iff, !in_flat_map.
  intros [[tp [Htp H]] | [[tk [Htk H]] | [[[p [Hp H]] | [p [Hp H]]] | [p [Hp H]]]]].
  - apply in_flat_map in H. destruct H as [pattern [Hpat H]].
    apply in_map_iff in H. destruct H as [m [<- Hm]].
    apply (Hfound pattern m); [|assumption|reflexivity|reflexivity].
    unfold searched_patterns. apply in_or_app. left.
    apply in_flat_map. now exists tp.
  - apply in_flat_map in H. destruct H as [keyword [Hk H]].
    destruct (contains keyword (lower text)); [|contradiction].
    apply in_map_iff in H. destruct H as [m [<- Hm]].
    apply (Hfound (keyword_pattern keyword) m); [|assumption|reflexivity|reflexivity].
    unfold searched_patterns. apply in_or_app. right. apply in_or_app. left.
    apply in_map. apply in_flat_map. now exists tk.
  - apply in_map_iff in H. destruct H as [m [<- Hm]].
    apply (Hfound p m); [|assumption|reflexivity|reflexivity].
    unfold searched_patterns. do 2 (apply in_or_app; right). apply in_or_app. now left.
  - apply in_map_iff in H. destruct H as [m [<- Hm]].
    apply (Hfound p m); [|assumption|reflexivity|reflexivity].
    unfold searched_patterns. do 3 (apply in_or_app; right). apply in_or_app. now left.
  - apply in_map_iff in H. destruct H as [m [<- Hm]].
    apply (Hfound p m); [|assumption|reflexivity|reflexivity].
    unfold searched_patterns. do 4 (apply in_or_app; right). exact Hp.
Qed.

Lemma searched_patterns_consume :
  forallb (fun r => 1 <=? min_len r) searched_patterns = true.
Proof. vm_compute. reflexivity. Qed.

Lemma returned_is_candidate (text : str) (e : Entity) :
  In e (extract_entities text) -> In e (candidates text).
Proof.
  intros H. apply RecognizerFacts.deduplicate_In in H.
  now apply RecognizerFacts.unique_from_incl in H.
Qed.

Lemma candidate_shape (text : str) (e : Entity) :
  In e (candidates text) -> recognised_shape e = true.
Proof.
  unfold candidates, regex_entities, keyword_entities, _extract_special_dates,
    _extract_projects.
  rewrite !in_app_iff, !in_flat_map.
  intros [[tp [Htp H]] | [[tk [Htk H]] | [[[p [Hp H]] | [p [Hp H]]] | [p [Hp H]]]]].
  - apply in_flat_map in H. destruct H as [pattern [Hpat H]].
    apply in_map_iff in H. destruct H as [m [<- Hm]].
    assert (Hall : forallb (fun tp : string * list re =>
                     recognised_shape (entity_of_match text (fst tp) (8 # 10) m))
                     patterns = true) by reflexivity.
    rewrite forallb_forall in Hall. now apply Hall.
  - apply in_flat_map in H. destruct H as [keyword [Hk H]].
    destruct (contains keyword (lower text)); [|contradiction].
    apply in_map_iff in H. destruct H as [m [<- Hm]].
    assert (Hall : forallb (fun tk : string * list str =>
                     recognised_shape (entity_of_match text (fst tk) (9 # 10) m))
                     keywords = true) by reflexivity.
    rewrite forallb_forall in Hall. now apply Hall.
  - apply in_map_iff in H. destruct H as [m [<- Hm]]. reflexivity.
  - apply in_map_iff in H. destruct H as [m [<- Hm]]. reflexivity.
  - apply in_map_iff in H. destruct H as [m [<- Hm]]. reflexivity.
Qed.

End RecognizerMore.

(** X1. Every entity that [extract_entities] returns has a span that is not
    empty and lies inside the text: [start < end <= len(text)]. *)
Theorem extract_entities_spans_in_text (text : str) (e : Entity) :
  In e (EntityRecognizer.extract_entities text) ->
  ent_start e < ent_end e /\ ent_end e <= List.length text.
Proof.
  intros H. apply RecognizerMore.returned_is_candidate in H.
  apply RecognizerMore.candidate_of_match in H.
  destruct H as [pattern [m [Hp [Hm [-> ->]]]]].
  apply (MatcherLengths.finditer_nonempty text pattern m); [|exact Hm].
  pose proof RecognizerMore.searched_patterns_consume as Hall.
  rewrite forallb_forall in Hall. apply Nat.leb_le. now apply Hall.
Qed.

Lemma extract_entities_spans_in_text_witness :
  let e := {| ent_name := u "Ana"; ent_type := "person"; ent_start := 3; ent_end := 20;
              ent_confidence := 9 # 10;
              ent_metadata := [("context"%string, u "birthday")]; ent_id := None |} in
  In e (EntityRecognizer.extract_entities (u "El cumpleaños de Ana"))
  /\ ent_start e < ent_end e /\ ent_end e <= List.length (u "El cumpleaños de Ana").
Proof.
  cbv zeta.
  assert (H : In {| ent_name := u "Ana"; ent_type := "person"; ent_start := 3;
                    ent_end := 20; ent_confidence := 9 # 10;
                    ent_metadata := [("context"%string, u "birthday")];
                    ent_id := None |}
                 (EntityRecognizer.extract_entities (u "El cumpleaños de Ana")))
    by (vm_compute; tauto).
  split; [exact H|].
  exact (extract_entities_spans_in_text (u "El cumpleaños de Ana") _ H).
Defined.

(** X2. Every entity that [extract_entities] returns has one of nine types
    (the seven of the patterns, and [event] and [task] of the keyword lists),
    confidence 0.8 or 0.9, no ["id"] key, and as metadata nothing or the one
    key ["context"] with value birthday, deadline or development. *)
Theorem extract_entities_shape (text : str) (e : Entity) :
  In e (EntityRecognizer.extract_entities text) -> recognised_shape e = true.
Proof.
  intros H. apply RecognizerMore.returned_is_candidate in H.
  now apply (RecognizerMore.candidate_shape text).
Qed.

Lemma extract_entities_shape_witness :
  let e := {| ent_name := u "Reunión"; ent_type := "event"; ent_start := 0; ent_end := 7;
              ent_confidence := 9 # 10; ent_metadata := []; ent_id := None |} in
  In e (EntityRecognizer.extract_entities scenario_message)
  /\ recognised_shape e = true.
Proof.
  cbv zeta.
  assert (H : In {| ent_name := u "Reunión"; ent_type := "event"; ent_start := 0;
                    ent_end := 7; ent_confidence := 9 # 10; ent_metadata := [];
                    ent_id := None |}
                 (EntityRecognizer.extract_entities scenario_message))
    by (vm_compute; tauto).
  split; [exact H|].
  exact (extract_entities_shape scenario_message _ H).
Defined.

Module KeywordFacts.
Import EntityRecognizer.



End KeywordFacts.



Module DedupMore.
Import EntityRecognizer.

Lemma unique_from_distinct (l : list Entity) :
  forall seen,
    NoDup (map key l) -> (forall e, In e l -> ~ In (key e) seen) ->
    unique_from seen l = l.
Proof.
  induction l as [|e r IH]; intros seen Hnd Hseen; [reflexivity|].
  cbn [unique_from].
  rewrite (proj2 (RecognizerFacts.seen_mem_not_In (key e) seen))
    by (apply Hseen; now left).
  f_equal. inversion Hnd as [|? ? Hnotin Hnd']; subst.
  apply IH; [assumption|].
  intros x Hx [Heq | Hin].
  - apply Hnotin. rewrite Heq. now apply in_map.
  - apply (Hseen x); [now right | assumption].
Qed.

Lemma sort_by_start_sorted_id (l : list Entity) :
  StronglySorted by_start l -> sort_by_start l = l.
Proof.
  induction l as [|e r IH]; intros Hs; [reflexivity|].
  inversion Hs as [|? ? Hr Hall]; subst.
  cbn [sort_by_start]. rewrite (IH Hr).
  destruct r as [|x r']; [reflexivity|].
  cbn [insert_by_start].
  inversion Hall as [|? ? Hle _]; subst. unfold by_start in Hle.
  now rewrite (proj2 (Nat.leb_le _ _) Hle).
Qed.

End DedupMore.

(** X4. [_deduplicate_entities] is idempotent: on its own result, or on any
    list already in order of start with distinct keys, it changes nothing. *)
Theorem deduplicate_entities_idempotent (l : list Entity) :
  EntityRecognizer._deduplicate_entities (EntityRecognizer._deduplicate_entities l)
  = EntityRecognizer._deduplicate_entities l
  /\ (StronglySorted by_start l -> NoDup (map EntityRecognizer.key l) ->
      EntityRecognizer._deduplicate_entities l = l).
Proof.
  assert (Hfix : forall l', StronglySorted by_start l' ->
                            NoDup (map EntityRecognizer.key l') ->
                            EntityRecognizer._deduplicate_entities l' = l').
  { intros l' Hs Hnd. unfold EntityRecognizer._deduplicate_entities.
    rewrite DedupMore.unique_from_distinct by (auto; intros e _ []).
    now apply DedupMore.sort_by_start_sorted_id. }
  split; [|apply Hfix].
  destruct (RecognizerFacts.deduplicate_spec l) as [Hs [Hnd _]].
  now apply Hfix.
Qed.

(** ** Entity statistics *)


(** ** Entity statistics *)

Module StatisticsFacts.
Import EntityStatistics CategorizerPaths.






End StatisticsFacts.


(** ** Categorizer: the winner *)

Module WinnerFacts.
Import ContentCategorizer.
Local Open Scope Q_scope.








End WinnerFacts.


(** ** Categorizer: subcategories, paths, updates *)

Module PathFacts.
Import CategorizerPaths.

Lemma subcategory_score_positive (text_lower : str) (kws : list str) :
  0 < subcategory_score text_lower kws ->
  exists kw, In kw kws /\ contains kw text_lower = true.
Proof.
  unfold subcategory_score.
  assert (H : forall init,
            init < fold_left (fun score keyword =>
                                if contains keyword text_lower then score + 1 else score)
                             kws init ->
            exists kw, In kw kws /\ contains kw text_lower = true).
  { induction kws as [|k r IH]; intros init Hlt; cbn [fold_left] in Hlt; [lia|].
    destruct (contains k text_lower) eqn:Hc.
    - exists k. split; [now left | exact Hc].
    - destruct (IH init Hlt) as [kw [Hin Hkw]]. exists kw. split; [now right | exact Hkw]. }
  apply H.
Qed.

(** The winner is one of the scored subcategories, with the greatest score. *)
Lemma max_subcategory_score (rest : list (string * nat)) :
  forall first : string * nat,
    let best := fold_left (fun best kv => if snd kv <=? snd best then best else kv)
                          rest first in
    In best (first :: rest)
    /\ max_score (snd first) (map snd rest) = snd best.
Proof.
  unfold max_score. induction rest as [|x r IH]; intros first; cbn zeta.
  - split; [now left | reflexivity].
  - cbn [fold_left map]. destruct (snd x <=? snd first).
    + destruct (IH first) as [Hin Hmax]. split; [|exact Hmax].
      destruct Hin as [<- | Hin]; [now left | right; now right].
    + destruct (IH x) as [Hin Hmax]. split; [|exact Hmax]. now right.
Qed.

Lemma lookup_In {A : Type} (k : string) (d : list (string * A)) (v : A) :
  lookup k d = Some v -> In (k, v) d.
Proof.
  induction d as [|[k' v'] r IH]; cbn [lookup]; [discriminate|].
  destruct (String.eqb k' k) eqn:Hk.
  - apply String.eqb_eq in Hk. intros H. inversion H. subst. now left.
  - intros H. right. now apply IH.
Qed.



End PathFacts.

(** X7. [get_subcategory] returns a subcategory only for a category that has
    registered subcategories ([work] and [personal]), and then one that is
    registered under that category and has a keyword of its own in the
    lower-cased text. *)
Theorem get_subcategory_registered_and_present (text : str) (primary_category : string) :
  (primary_category <> "work"%string -> primary_category <> "personal"%string ->
   CategorizerPaths.get_subcategory text primary_category = None)
  /\ (forall sub,
        CategorizerPaths.get_subcategory text primary_category = Some sub ->
        exists subs kws kw,
          CategorizerPaths.lookup primary_category CategorizerPaths.subcategories
          = Some subs
          /\ In (sub, kws) subs /\ In kw kws
          /\ contains kw (lower text) = true).
Proof.
  unfold CategorizerPaths.get_subcategory. split.
  - intros Hw Hp. cbn [CategorizerPaths.lookup CategorizerPaths.subcategories].
    destruct (String.eqb "work" primary_category) eqn:H1.
    { apply String.eqb_eq in H1. now contradiction Hw. }
    destruct (String.eqb "personal" primary_category) eqn:H2.
    { apply String.eqb_eq in H2. now contradiction Hp. }
    reflexivity.
  - intros sub H.
    destruct (CategorizerPaths.lookup primary_category CategorizerPaths.subcategories)
      as [subs|]; [|discriminate].
    unfold CategorizerPaths.subcategory_scores in H.
    destruct subs as [|s0 subs']; [discriminate|].
    cbn [map] in H.
    match type of H with
    | context [CategorizerPaths.max_score (snd ?f) (map snd ?r)] =>
      destruct (PathFacts.max_subcategory_score r f) as [Hin Hmax];
      rewrite Hmax in H
    end.
    unfold CategorizerPaths.max_subcategory in H.
    match type of Hin with
    | In ?b _ => set (best := b) in *
    end.
    destruct (snd best =? 0) eqn:Hz; [discriminate|]. apply Nat.eqb_neq in Hz.
    inversion H as [Hsub].
    change (In best (map (fun sk => (fst sk,
                                     CategorizerPaths.subcategory_score (lower text) (snd sk)))
                         (s0 :: subs'))) in Hin.
    apply in_map_iff in Hin. destruct Hin as [sk [Hsk Hin]].
    assert (Hpos : 0 < CategorizerPaths.subcategory_score (lower text) (snd sk))
      by (rewrite <- Hsk in Hz; cbn [snd] in Hz; lia).
    apply PathFacts.subcategory_score_positive in Hpos. destruct Hpos as [kw [Hkw Hc]].
    exists (s0 :: subs'), (snd sk), kw. split; [reflexivity|].
    split; [|split; assumption].
    rewrite <- Hsk. cbn [fst]. now destruct sk.
Qed.

Module PathMore.
Import CategorizerPaths.


Lemma find_first {A : Type} (f : A -> bool) (pre post : list A) (e : A) :
  (forall x, In x pre -> f x = false) -> f e = true ->
  find f (pre ++ e :: post) = Some e.
Proof.
  induction pre as [|x r IH]; intros Hpre He; cbn [app find].
  - now rewrite He.
  - rewrite (Hpre x (or_introl eq_refl)). apply IH; [|exact He].
    intros y Hy. apply Hpre. now right.
Qed.

Lemma lookup_update_category (k c : string) (config : PartialConfig)
  (cats : list (string * PartialConfig)) :
  lookup k (update_category c config cats)
  = if String.eqb c k then Some (merged (lookup c cats) config) else lookup k cats.
Proof.
  induction cats as [|[k' v] r IH]; cbn [update_category lookup].
  - reflexivity.
  - destruct (String.eqb k' c) eqn:Hc; cbn [lookup].
    + apply String.eqb_eq in Hc. subst k'.
      destruct (String.eqb c k); reflexivity.
    + rewrite IH. destruct (String.eqb k' k) eqn:Hk; [|reflexivity].
      apply String.eqb_eq in Hk. subst k'.
      now rewrite (String.eqb_sym c k), Hc.
Qed.

Lemma lookup_absent {A : Type} (k : string) (d : list (string * A)) :
  ~ In k (map fst d) -> lookup k d = None.
Proof.
  induction d as [|[k' v] r IH]; intros H; [reflexivity|].
  cbn [lookup]. destruct (String.eqb k' k) eqn:Hk.
  - apply String.eqb_eq in Hk. exfalso. apply H. left. exact Hk.
  - apply IH. intros Hin. apply H. now right.
Qed.

Lemma keys_update_category (c : string) (config : PartialConfig)
  (cats : list (string * PartialConfig)) :
  map fst (update_category c config cats)
  = map fst cats ++ (if existsb (String.eqb c) (map fst cats) then [] else [c]).
Proof.
  induction cats as [|[k' v] r IH]; cbn [update_category map existsb fst app];
    [reflexivity|].
  rewrite (String.eqb_sym c k').
  destruct (String.eqb k' c); cbn [map fst orb].
  - now rewrite app_nil_r.
  - now rewrite IH.
Qed.

End PathMore.


(** X9. [update_categories] is a shallow merge. After an update whose
    categories are distinct, a category named in it has the keys of its new
    definition over those it had (a key that the new definition lacks keeps
    its old value), a category not named is as before, the known categories
    keep their order, and the unknown ones come after them. *)
Theorem update_categories_shallow_merge
  (cats new_categories : list (string * CategorizerPaths.PartialConfig)) :
  NoDup (map fst new_categories) ->
  (forall k,
     CategorizerPaths.lookup k (CategorizerPaths.update_categories cats new_categories)
     = match CategorizerPaths.lookup k new_categories with
       | Some config => Some (merged (CategorizerPaths.lookup k cats) config)
       | None => CategorizerPaths.lookup k cats
       end)
  /\ exists added,
       map fst (CategorizerPaths.update_categories cats new_categories)
       = map fst cats ++ added
       /\ forall k, In k added -> In k (map fst new_categories) /\ ~ In k (map fst cats).
Proof.
  unfold CategorizerPaths.update_categories.
  revert cats. induction new_categories as [|[c config] r IH]; intros cats Hnd.
  - split; [reflexivity|]. exists []. rewrite app_nil_r. split; [reflexivity | intros k []].
  - inversion Hnd as [|? ? Hnotin Hnd']; subst.
    cbn [fold_left fst snd].
    destruct (IH (CategorizerPaths.update_category c config cats) Hnd') as [Hlook [added [Hkeys Hadded]]].
    split.
    + intros k. rewrite Hlook, PathMore.lookup_update_category.
      cbn [CategorizerPaths.lookup].
      destruct (String.eqb c k) eqn:Hk; [|reflexivity].
      apply String.eqb_eq in Hk. subst k.
      now rewrite (PathMore.lookup_absent c r Hnotin).
    + rewrite Hkeys, PathMore.keys_update_category, <- app_assoc.
      eexists. split; [reflexivity|].
      intros k Hin. apply in_app_or in Hin. destruct Hin as [Hin | Hin].
      * destruct (existsb (String.eqb c) (map fst cats)) eqn:He; [contradiction|].
        destruct Hin as [<- | []]. split; [now left|].
        intros Hc. assert (Ht : existsb (String.eqb c) (map fst cats) = true).
        { apply existsb_exists. exists c. split; [exact Hc | apply String.eqb_refl]. }
        congruence.
      * destruct (Hadded k Hin) as [H1 H2]. split; [now right|].
        intros Hc. apply H2. rewrite PathMore.keys_update_category.
        apply in_or_app. now left.
Qed.

Lemma update_categories_shallow_merge_witness :
  let cats := map (fun cc => (fst cc, CategorizerPaths.of_config (snd cc)))
                  ContentCategorizer.categories in
  let new_categories :=
    [ ("work"%string,
       {| CategorizerPaths.p_keywords := None; CategorizerPaths.p_weight := Some (2 # 1) |});
      ("travel"%string,
       {| CategorizerPaths.p_keywords := Some [u "viaje"];
          CategorizerPaths.p_weight := Some 1%Q |}) ] in
  NoDup (map fst new_categories)
  /\ (forall k,
        CategorizerPaths.lookup k (CategorizerPaths.update_categories cats new_categories)
        = match CategorizerPaths.lookup k new_categories with
          | Some config => Some (merged (CategorizerPaths.lookup k cats) config)
          | None => CategorizerPaths.lookup k cats
          end)
  /\ exists added,
       map fst (CategorizerPaths.update_categories cats new_categories)
       = map fst cats ++ added
       /\ forall k, In k added -> In k (map fst new_categories) /\ ~ In k (map fst cats).
Proof.
  cbv zeta.
  assert (Hnd : NoDup (map fst
            [ ("work"%string,
               {| CategorizerPaths.p_keywords := None;
                  CategorizerPaths.p_weight := Some (2 # 1) |});
              ("travel"%string,
               {| CategorizerPaths.p_keywords := Some [u "viaje"];
                  CategorizerPaths.p_weight := Some 1%Q |}) ])).
  { cbn. constructor; [intros [H | []]; discriminate|].
    constructor; [intros [] | constructor]. }
  split; [exact Hnd|].
  exact (update_categories_shallow_merge _ _ Hnd).
Defined.

(** ** Coach: the stages *)

Module CoachFacts.
Import Coach.

Lemma bump_entry (t k : str) (n : nat) (d : list (str * nat)) :
  In (k, n) (bump t d) ->
  (k = t /\ (n = 1 \/ exists n', n = S n' /\ In (k, n') d)) \/ In (k, n) d.
Proof.
  induction d as [|[k' n'] r IH]; cbn [bump].
  - intros [H | []]. inversion H. left. auto.
  - destruct (str_eqb k' t) eqn:Hk.
    + apply str_eqb_eq in Hk. subst k'. intros [H | H].
      * inversion H. subst. left. split; [reflexivity|]. right. exists n'.
        split; [reflexivity | now left].
      * right. now right.
    + intros [H | H].
      * right. now left.
      * destruct (IH H) as [[-> [-> | [m [-> Hm]]]] | Hin].
        -- left. auto.
        -- left. split; [reflexivity|]. right. exists m. split; [reflexivity | now right].
        -- right. now right.
Qed.

(** One context item adds at most one to the count of a topic. *)
Lemma topics_step (message : str) (tl : list (str * list str)) :
  NoDup (map fst tl) ->
  forall d k n,
    In (k, n) (fold_left (fun tf tk => if any_in (snd tk) message
                                        then bump (fst tk) tf else tf) tl d) ->
    In (k, n) d
    \/ (In k (map fst tl) /\ (n = 1 \/ exists n', n = S n' /\ In (k, n') d)).
Proof.
  induction tl as [|t r IH]; intros Hnd d k n H; [now left|].
  inversion Hnd as [|? ? Hnotin Hnd']; subst.
  cbn [fold_left] in H. apply (IH Hnd') in H.
  assert (Hstep : forall m, In (k, m) (if any_in (snd t) message then bump (fst t) d else d) ->
                  (k = fst t /\ (m = 1 \/ exists m', m = S m' /\ In (k, m') d))
                  \/ In (k, m) d).
  { intros m Hm. destruct (any_in (snd t) message); [now apply bump_entry | now right]. }
  destruct H as [H | [Hk [-> | [n' [-> Hn']]]]].
  - apply Hstep in H. destruct H as [[-> Hcase] | H]; [|now left].
    right. split; [now left | exact Hcase].
  - right. split; [now right | now left].
  - apply Hstep in Hn'. destruct Hn' as [[-> _] | Hn'].
    + contradiction.
    + right. split; [now right|]. right. now exists n'.
Qed.

Lemma topics_distinct : NoDup (map fst topics).
Proof.
  cbn [map fst topics].
  repeat (constructor; [cbn; intros H; repeat destruct H as [H | H]; try discriminate; exact H|]).
  constructor.
Qed.

Lemma topic_frequency_bounded (relevant_context : list Conversation) :
  forall d j,
    (forall k n, In (k, n) d -> In k (map fst topics) /\ n <= j) ->
    forall k n,
      In (k, n)
         (fold_left (fun topic_frequency context =>
                       fold_left (fun tf tk =>
                                    if any_in (snd tk) (lower (conv_user_message context))
                                    then bump (fst tk) tf else tf)
                                 topics topic_frequency)
                    relevant_context d) ->
      In k (map fst topics) /\ n <= j + List.length relevant_context.
Proof.
  induction relevant_context as [|c r IH]; intros d j Hd k n H.
  - cbn in H. destruct (Hd k n H). split; [assumption | cbn [List.length]; lia].
  - cbn [fold_left] in H. cbn [List.length].
    replace (j + S (List.length r)) with (S j + List.length r) by lia.
    eapply IH; [|exact H].
    intros k' n' H'. apply (topics_step _ topics topics_distinct) in H'.
    destruct H' as [H' | [Hk [-> | [m [-> Hm]]]]].
    + destruct (Hd k' n' H'). split; [assumption | lia].
    + split; [assumption | lia].
    + destruct (Hd k' m Hm). split; [assumption | lia].
Qed.

Lemma analyze_topic_frequency_bounded (relevant_context : list Conversation)
  (k : str) (n : nat) :
  In (k, n) (_analyze_topic_frequency relevant_context) ->
  In k (map fst topics) /\ n <= List.length relevant_context.
Proof.
  intros H. apply (topic_frequency_bounded relevant_context [] 0); [|exact H].
  intros k' n' [].
Qed.

End CoachFacts.

(** X10. Every insight of [generate_insights] has one of the five types and
    one of the three priorities; a pattern insight names one of the four
    topics, with a frequency above 3 and not above the number of context
    items. *)
Theorem generate_insights_well_formed (user_message : str) (ents : list Entity)
  (relevant_context : list Conversation) (i : Coach.Insight) :
  In i (Coach.generate_insights user_message ents relevant_context) ->
  well_formed_insight (List.length relevant_context) i = true.
Proof.
  unfold Coach.generate_insights. intros H. apply In_firstn in H.
  rewrite !in_app_iff in H. destruct H as [H | [H | [H | H]]].
  - unfold Coach._analyze_message_for_insights in H.
    rewrite !in_app_iff in H.
    destruct H as [H | [H | H]];
      match type of H with
      | In _ (if ?b then _ else _) => destruct b
      end; try contradiction; destruct H as [<- | []]; reflexivity.
  - unfold Coach._generate_reminders in H. apply in_flat_map in H.
    destruct H as [e [_ H]].
    destruct (String.eqb (ent_type e) "person").
    + destruct (Coach._get_person_context _ _); [contradiction|].
      destruct H as [<- | []]. reflexivity.
    + destruct (String.eqb (ent_type e) "project"); [|contradiction].
      destruct H as [<- | []]. reflexivity.
  - unfold Coach._detect_patterns in H. apply in_app_or in H.
    destruct H as [H | H]; [|contradiction].
    apply in_flat_map in H. destruct H as [[k n] [Hkn H]]. cbn [fst snd] in H.
    destruct (3 <? n) eqn:Hn; [|contradiction]. destruct H as [<- | []].
    apply CoachFacts.analyze_topic_frequency_bounded in Hkn. destruct Hkn as [Hk Hle].
    unfold well_formed_insight.
    cbn [Coach.pattern_insight Coach.i_type Coach.i_priority Coach.i_pattern
           Coach.i_frequency].
    rewrite Hn, (proj2 (Nat.leb_le _ _) Hle).
    assert (Hin : ContentCategorizer.str_in k (map fst Coach.topics) = true).
    { apply existsb_exists. exists k. split; [exact Hk | apply str_eqb_refl]. }
    rewrite Hin. reflexivity.
  - unfold Coach._generate_proactive_suggestions in H.
    rewrite !in_app_iff in H.
    destruct H as [H | [H | H]].
    + destruct (3 <? List.length ents); [|contradiction].
      destruct H as [<- | []]. reflexivity.
    + destruct relevant_context; [contradiction|]. destruct H as [<- | []]. reflexivity.
    + destruct (filter _ ents); [contradiction|]. destruct H as [<- | []]. reflexivity.
Qed.

Lemma generate_insights_well_formed_witness :
  In Coach.meeting_insight
     (Coach.generate_insights scenario_message
        (EntityRecognizer.extract_entities scenario_message) [])
  /\ well_formed_insight 0 Coach.meeting_insight = true.
Proof.
  assert (H : In Coach.meeting_insight
                 (Coach.generate_insights scenario_message
                    (EntityRecognizer.extract_entities scenario_message) []))
    by (vm_compute; tauto).
  split; [exact H|].
  exact (generate_insights_well_formed scenario_message _ [] _ H).
Defined.

(** X11. [_generate_reminders] gives at most one reminder per entity. With no
    context it gives exactly the project follow-ups, one for each project
    entity in order; a person entity gets its follow-up when a context item
    holds an entity of the same name, whatever the case. *)
Theorem generate_reminders_by_entity (ents : list Entity)
  (relevant_context : list Conversation) :
  List.length (Coach._generate_reminders ents relevant_context) <= List.length ents
  /\ Coach._generate_reminders ents []
     = map (fun e => Coach.project_reminder (ent_name e)) (filter is_project ents)
  /\ (forall e conv ce,
        In e ents -> ent_type e = "person"%string ->
        In conv relevant_context -> In ce (conv_entities conv) ->
        lower (ent_name ce) = lower (ent_name e) ->
        In (Coach.person_reminder (ent_name e))
           (Coach._generate_reminders ents relevant_context)).
Proof.
  unfold Coach._generate_reminders. split; [|split].
  - induction ents as [|e r IH]; [apply Nat.le_refl|].
    cbn [flat_map]. rewrite length_app. cbn [List.length].
    assert (H1 : List.length
              (if String.eqb (ent_type e) "person"
               then match Coach._get_person_context (ent_name e) relevant_context with
                    | [] => []
                    | _ :: _ => [Coach.person_reminder (ent_name e)]
                    end
               else if String.eqb (ent_type e) "project"
                    then [Coach.project_reminder (ent_name e)] else []) <= 1).
    { destruct (String.eqb (ent_type e) "person").
      - destruct (Coach._get_person_context _ _); cbn; lia.
      - destruct (String.eqb (ent_type e) "project"); cbn; lia. }
    lia.
  - induction ents as [|e r IH]; [reflexivity|].
    cbn [flat_map filter]. rewrite IH. unfold is_project at 2.
    destruct (String.eqb (ent_type e) "person") eqn:Hp.
    + apply String.eqb_eq in Hp. rewrite Hp. reflexivity.
    + destruct (String.eqb (ent_type e) "project"); reflexivity.
  - intros e conv ce He Hty Hconv Hce Hname.
    apply in_flat_map. exists e. split; [exact He|].
    rewrite Hty. cbn [String.eqb Ascii.eqb Bool.eqb andb].
    assert (Hin : In conv (Coach._get_person_context (ent_name e) relevant_context)).
    { unfold Coach._get_person_context. apply filter_In. split; [exact Hconv|].
      apply existsb_exists. exists ce. split; [exact Hce|]. now apply str_eqb_eq. }
    destruct (Coach._get_person_context (ent_name e) relevant_context);
      [contradiction | now left].
Qed.

(** X12. [_detect_patterns] reports nothing when there are at most 3 context
    items: no topic can have been met more than 3 times. *)
Theorem detect_patterns_needs_four_items (user_message : str)
  (relevant_context : list Conversation) :
  List.length relevant_context <= 3 ->
  Coach._detect_patterns user_message relevant_context = [].
Proof.
  intros Hlen. unfold Coach._detect_patterns. cbn [Coach._analyze_time_patterns].
  rewrite app_nil_r.
  assert (H : forall l : list (str * nat),
            (forall k n, In (k, n) l -> n <= 3) ->
            flat_map (fun tf : str * nat =>
                        if 3 <? snd tf then [Coach.pattern_insight (fst tf) (snd tf)]
                        else []) l = []).
  { induction l as [|[k n] r IH]; intros Hall; [reflexivity|].
    cbn [flat_map fst snd].
    rewrite (proj2 (Nat.ltb_ge 3 n)) by (apply (Hall k); now left).
    apply IH. intros k' n' Hin. apply (Hall k'). now right. }
  apply H. intros k n Hin.
  apply CoachFacts.analyze_topic_frequency_bounded in Hin. lia.
Qed.

Lemma detect_patterns_needs_four_items_witness :
  List.length (map (DatabaseManager.load_conversation demo_json)
                   (conversations (db demo_world))) <= 3
  /\ Coach._detect_patterns (u "trabajo")
       (map (DatabaseManager.load_conversation demo_json) (conversations (db demo_world)))
     = [].
Proof.
  assert (H : List.length (map (DatabaseManager.load_conversation demo_json)
                               (conversations (db demo_world))) <= 3)
    by (vm_compute; lia).
  split; [exact H|].
  exact (detect_patterns_needs_four_items (u "trabajo") _ H).
Defined.

(** ** Order of strings and sorting *)

Module OrderFacts.

Lemma compare_not_gt_trans (s1 : string) :
  forall s2 s3,
    String.compare s1 s2 <> Gt -> String.compare s2 s3 <> Gt ->
    String.compare s1 s3 <> Gt.
Proof.
  induction s1 as [|a r1 IH]; intros s2 s3 H12 H23.
  - destruct s3; cbn; discriminate.
  - destruct s2 as [|b r2]; [cbn in H12; congruence|].
    destruct s3 as [|c r3]; [cbn in H23; congruence|].
    cbn [String.compare] in *.
    unfold Ascii.compare in *.
    destruct (N.compare_spec (N_of_ascii a) (N_of_ascii b)) as [Hab | Hab | Hab];
      destruct (N.compare_spec (N_of_ascii b) (N_of_ascii c)) as [Hbc | Hbc | Hbc];
      try congruence;
      destruct (N.compare_spec (N_of_ascii a) (N_of_ascii c)) as [Hac | Hac | Hac];
      try discriminate; try lia.
    eapply IH; eassumption.
Qed.

Lemma leb_trans (s1 s2 s3 : string) :
  String.leb s1 s2 = true -> String.leb s2 s3 = true -> String.leb s1 s3 = true.
Proof.
  unfold String.leb. intros H12 H23.
  assert (H : String.compare s1 s3 <> Gt).
  { apply (compare_not_gt_trans s1 s2 s3).
    - destruct (String.compare s1 s2); congruence.
    - destruct (String.compare s2 s3); congruence. }
  destruct (String.compare s1 s3); congruence.
Qed.

Lemma leb_refl (s : string) : String.leb s s = true.
Proof. destruct (String.leb_total s s); assumption. Qed.

Section SortBy.

Variable A : Type.
Variable before : A -> A -> bool.
Hypothesis before_total : forall a b, before a b = false -> before b a = true.
Hypothesis before_trans :
  forall a b c, before a b = true -> before b c = true -> before a c = true.

Lemma insert_by_perm (e : A) (l : list A) : Permutation (insert_by before e l) (e :: l).
Proof.
  induction l as [|x r IH]; cbn [insert_by]; [reflexivity|].
  destruct (before e x); [reflexivity|]. rewrite IH. apply perm_swap.
Qed.

Lemma sort_by_perm (l : list A) : Permutation (sort_by before l) l.
Proof.
  induction l as [|e r IH]; cbn [sort_by]; [reflexivity|].
  rewrite insert_by_perm. now constructor.
Qed.

Lemma insert_by_sorted (e : A) (l : list A) :
  StronglySorted (fun a b => before a b = true) l ->
  StronglySorted (fun a b => before a b = true) (insert_by before e l).
Proof.
  induction l as [|x r IH]; cbn [insert_by]; intros Hs.
  - repeat constructor.
  - destruct (before e x) eqn:Hb.
    + constructor; [assumption|].
      inversion Hs as [|? ? _ Hall]; subst. constructor; [exact Hb|].
      eapply Forall_impl; [|exact Hall]. intros y Hy. eapply before_trans; eassumption.
    + inversion Hs as [|? ? Hr Hall]; subst.
      constructor; [now apply IH|].
      eapply Permutation_Forall; [symmetry; apply insert_by_perm|].
      constructor; [now apply before_total | assumption].
Qed.

Lemma sort_by_sorted (l : list A) :
  StronglySorted (fun a b => before a b = true) (sort_by before l).
Proof.
  induction l as [|e r IH]; cbn [sort_by]; [constructor | now apply insert_by_sorted].
Qed.

End SortBy.

Lemma sorted_firstn {A : Type} (R : A -> A -> Prop) (n : nat) (l : list A) :
  StronglySorted R l -> StronglySorted R (firstn n l).
Proof.
  revert l. induction n as [|n IH]; intros [|x l] Hs; cbn [firstn]; try constructor.
  - inversion Hs; subst. now apply IH.
  - inversion Hs as [|? ? _ Hall]; subst.
    rewrite Forall_forall in *. intros y Hy. apply Hall. eapply In_firstn; eassumption.
Qed.

(** The two [ORDER BY] clauses are such sorts. *)
Lemma insert_desc_is_insert (c : ConversationRow) (l : list ConversationRow) :
  DatabaseManager.insert_desc c l = insert_by newer_first c l.
Proof.
  induction l as [|x r IH]; [reflexivity|].
  cbn [DatabaseManager.insert_desc insert_by].
  change (newer_first c x) with (String.leb (c_timestamp x) (c_timestamp c)).
  now rewrite IH.
Qed.

Lemma order_by_timestamp_is_sort (l : list ConversationRow) :
  DatabaseManager.order_by_timestamp_desc l = sort_by newer_first l.
Proof.
  induction l as [|c r IH]; [reflexivity|].
  cbn [DatabaseManager.order_by_timestamp_desc sort_by].
  now rewrite IH, insert_desc_is_insert.
Qed.

Lemma insert_ranked_is_insert (e : EntityRow) (l : list EntityRow) :
  StoreQueries.insert_ranked e l = insert_by StoreQueries.ranks_before e l.
Proof.
  induction l as [|x r IH]; [reflexivity|].
  cbn [StoreQueries.insert_ranked insert_by]. now rewrite IH.
Qed.

Lemma order_by_mentions_is_sort (l : list EntityRow) :
  StoreQueries.order_by_mentions l = sort_by StoreQueries.ranks_before l.
Proof.
  induction l as [|c r IH]; [reflexivity|].
  cbn [StoreQueries.order_by_mentions sort_by].
  now rewrite IH, insert_ranked_is_insert.
Qed.

Lemma newer_first_total (a b : ConversationRow) :
  newer_first a b = false -> newer_first b a = true.
Proof.
  unfold newer_first. intros H.
  destruct (String.leb_total (c_timestamp b) (c_timestamp a)); congruence.
Qed.

Lemma newer_first_trans (a b c : ConversationRow) :
  newer_first a b = true -> newer_first b c = true -> newer_first a c = true.
Proof. unfold newer_first. intros H1 H2. eapply leb_trans; eassumption. Qed.

Lemma ranks_before_total (a b : EntityRow) :
  StoreQueries.ranks_before a b = false -> StoreQueries.ranks_before b a = true.
Proof.
  unfold StoreQueries.ranks_before. intros H.
  apply orb_false_iff in H. destruct H as [H1 H2].
  apply Z.ltb_ge in H1.
  destruct (Z.eqb_spec (er_mention_count b) (er_mention_count a)) as [Heq | Hne].
  - cbn [andb] in H2. rewrite Heq, Z.eqb_refl, Z.ltb_irrefl. cbn.
    destruct (String.leb_total (er_first_seen b) (er_first_seen a)); congruence.
  - apply orb_true_iff. left. apply Z.ltb_lt. lia.
Qed.

Lemma ranks_before_trans (a b c : EntityRow) :
  StoreQueries.ranks_before a b = true -> StoreQueries.ranks_before b c = true ->
  StoreQueries.ranks_before a c = true.
Proof.
  unfold StoreQueries.ranks_before. intros H1 H2.
  apply orb_true_iff in H1. apply orb_true_iff in H2. apply orb_true_iff.
  destruct H1 as [H1 | H1], H2 as [H2 | H2];
    rewrite ?andb_true_iff, ?Z.ltb_lt, ?Z.eqb_eq in *.
  - left. lia.
  - left. lia.
  - left. lia.
  - right. destruct H1 as [E1 L1], H2 as [E2 L2]. split; [lia|].
    eapply leb_trans; eassumption.
Qed.

End OrderFacts.

(** ** Store: the queries *)

Module QueryFacts.

Lemma selected_conversations (s : Store) (session_id : option string) :
  (if DatabaseManager.truthy_string session_id
   then filter (fun c => opt_string_eqb (Some (c_session_id c)) session_id)
               (conversations s)
   else conversations s) = rows_of_session s session_id.
Proof. destruct session_id as [[|a r]|]; reflexivity. Qed.

Lemma selected_entities (s : Store) (entity_type : option string) :
  (if DatabaseManager.truthy_string entity_type
   then filter (fun r => opt_string_eqb (Some (er_type r)) entity_type) (entities s)
   else entities s) = rows_of_type s entity_type.
Proof. destruct entity_type as [[|a r]|]; reflexivity. Qed.

Lemma history_rows (J : Json) (s : Store) (session_id : option string) (limit : nat) :
  map conv_row (DatabaseManager.get_conversation_history J s session_id limit)
  = firstn limit (sort_by newer_first (rows_of_session s session_id)).
Proof.
  unfold DatabaseManager.get_conversation_history.
  rewrite selected_conversations, OrderFacts.order_by_timestamp_is_sort, map_map.
  cbn [DatabaseManager.load_conversation conv_row]. apply map_id.
Qed.

Lemma entity_rows (loads : str -> list (string * str)) (s : Store)
  (entity_type : option string) (limit : nat) :
  map ev_row (StoreQueries.get_entities loads s entity_type limit)
  = firstn limit (sort_by StoreQueries.ranks_before (rows_of_type s entity_type)).
Proof.
  unfold StoreQueries.get_entities.
  rewrite selected_entities, OrderFacts.order_by_mentions_is_sort, map_map.
  cbn [StoreQueries.load_entity ev_row]. apply map_id.
Qed.

Lemma firstn_all_perm {A : Type} (n : nat) (l l' : list A) :
  Permutation l l' -> List.length l' <= n -> Permutation (firstn n l) l'.
Proof.
  intros Hp Hlen. rewrite firstn_all2; [exact Hp|].
  rewrite (Permutation_length Hp). exact Hlen.
Qed.

End QueryFacts.



(** X15. [get_memory_stats] reports as [last_updated] the latest timestamp of
    the store, and nothing when the store has no conversation; the two
    totals stop at 1000. *)
Theorem get_memory_stats_last_updated (J : Json) (loads : str -> list (string * str))
  (s : Store) :
  let stats := MemoryQueries.get_memory_stats J loads s in
  match MemoryQueries.last_updated stats with
  | None => conversations s = []
  | Some ts =>
    (exists c, In c (conversations s) /\ c_timestamp c = ts)
    /\ forall c, In c (conversations s) -> String.leb (c_timestamp c) ts = true
  end
  /\ MemoryQueries.total_conversations stats <= 1000
  /\ MemoryQueries.total_entities stats <= 1000.
Proof.
  cbv zeta. unfold MemoryQueries.get_memory_stats.
  cbn [MemoryQueries.last_updated MemoryQueries.total_conversations
         MemoryQueries.total_entities].
  split; [|split; [apply MemoryFacts.history_length|]].
  - pose proof (QueryFacts.history_rows J s None 1000) as Hrows.
    cbn [rows_of_session] in Hrows.
    pose proof (OrderFacts.sort_by_perm _ newer_first (conversations s)) as Hperm.
    pose proof (OrderFacts.sort_by_sorted _ newer_first OrderFacts.newer_first_total
                  OrderFacts.newer_first_trans (conversations s)) as Hsorted.
    destruct (DatabaseManager.get_conversation_history J s None 1000) as [|c0 rest].
    + cbn [map] in Hrows.
      destruct (sort_by newer_first (conversations s)) as [|x l]; [|discriminate].
      apply Permutation_nil. exact Hperm.
    + cbn [map] in Hrows.
      destruct (sort_by newer_first (conversations s)) as [|x l]; [discriminate|].
      rewrite firstn_cons in Hrows. injection Hrows as Hx _. rewrite Hx.
      split.
      * exists x. split; [|reflexivity].
        eapply Permutation_in; [exact Hperm | now left].
      * intros c Hc. apply (Permutation_in _ (Permutation_sym Hperm)) in Hc.
        destruct Hc as [<- | Hc]; [apply OrderFacts.leb_refl|].
        inversion Hsorted as [|? ? _ Hall]; subst.
        rewrite Forall_forall in Hall. exact (Hall c Hc).
  - unfold StoreQueries.get_entities. rewrite length_map. apply firstn_le_length.
Qed.

(** X16. Saving a conversation in one session leaves the history of every
    other session as it was. *)
Theorem save_conversation_other_session (J : Json) (env : Oracle) (w : World)
  (session_id other : string) (user_message adam_response : str)
  (ents : option (list Entity)) (chroma_id : option string) (limit : nat) :
  other <> session_id -> other <> EmptyString ->
  DatabaseManager.get_conversation_history J
    (db (world_of (DatabaseManager.save_conversation J env w session_id user_message
                     adam_response ents chroma_id)))
    (Some other) limit
  = DatabaseManager.get_conversation_history J (db w) (Some other) limit.
Proof.
  intros Hne Hnonempty. unfold DatabaseManager.save_conversation.
  destruct (existsb _ (conversations (db w))); [reflexivity|].
  unfold DatabaseManager.get_conversation_history.
  cbn [world_of db DatabaseManager.advance DatabaseManager.set_conversations conversations].
  destruct other as [|a r]; [now contradiction Hnonempty|].
  cbn [DatabaseManager.truthy_string]. rewrite filter_app. cbn [filter c_session_id].
  cbn [opt_string_eqb].
  destruct (String.eqb session_id (String a r)) eqn:He.
  - apply String.eqb_eq in He. now contradiction Hne.
  - now rewrite app_nil_r.
Qed.

Lemma save_conversation_other_session_witness :
  "s2"%string <> "s1"%string /\ "s2"%string <> EmptyString
  /\ DatabaseManager.get_conversation_history demo_json
       (db (world_of (DatabaseManager.save_conversation demo_json demo_oracle demo_world
                        "s1" (u "Reunión con María") (u "Interesante.")
                        (Some demo_entities) None)))
       (Some "s2"%string) 10
     = DatabaseManager.get_conversation_history demo_json (db demo_world)
         (Some "s2"%string) 10.
Proof.
  assert (H1 : "s2"%string <> "s1"%string) by discriminate.
  assert (H2 : "s2"%string <> EmptyString) by discriminate.
  split; [exact H1|]. split; [exact H2|].
  exact (save_conversation_other_session demo_json demo_oracle demo_world "s1" "s2"
           (u "Reunión con María") (u "Interesante.") (Some demo_entities) None 10 H1 H2).
Defined.

(** X17. [get_relationships] returns a relationship exactly when the id asked
    for is one of its two identifiers and both identifiers are those of
    stored entities, whose names it then carries. *)
Theorem get_relationships_both_ends_stored (s : Store) (entity_id : string)
  (v : RelationshipView) :
  In v (DatabaseManager.get_relationships s entity_id)
  <-> exists r e1 e2,
        In r (relationships s) /\ In e1 (entities s) /\ In e2 (entities s)
        /\ (r_entity1_id r = entity_id \/ r_entity2_id r = entity_id)
        /\ er_id e1 = r_entity1_id r /\ er_id e2 = r_entity2_id r
        /\ v = relationship_view r e1 e2.
Proof.
  unfold DatabaseManager.get_relationships. rewrite in_flat_map. split.
  - intros [r [Hr H]].
    destruct (String.eqb (r_entity1_id r) entity_id || String.eqb (r_entity2_id r) entity_id)
      eqn:Hw; [|contradiction].
    apply in_flat_map in H. destruct H as [e1 [He1 H]].
    apply in_flat_map in H. destruct H as [e2 [He2 H]].
    destruct H as [<- | []].
    apply filter_In in He1. destruct He1 as [He1 Hid1].
    apply filter_In in He2. destruct He2 as [He2 Hid2].
    apply String.eqb_eq in Hid1. apply String.eqb_eq in Hid2.
    exists r, e1, e2. repeat split; auto.
    apply orb_true_iff in Hw. rewrite !String.eqb_eq in Hw. exact Hw.
  - intros [r [e1 [e2 [Hr [He1 [He2 [Hw [Hid1 [Hid2 ->]]]]]]]]].
    exists r. split; [exact Hr|].
    assert (Hb : String.eqb (r_entity1_id r) entity_id
                 || String.eqb (r_entity2_id r) entity_id = true).
    { apply orb_true_iff. rewrite !String.eqb_eq. exact Hw. }
    rewrite Hb. apply in_flat_map. exists e1. split.
    { apply filter_In. split; [exact He1|]. apply String.eqb_eq. now symmetry. }
    apply in_flat_map. exists e2. split.
    { apply filter_In. split; [exact He2|]. apply String.eqb_eq. now symmetry. }
    now left.
Qed.

(** ** Store: what the writes keep *)

Module KeepFacts.
Import DatabaseManager.

Lemma entity_kept_refl (r : EntityRow) : entity_kept r r.
Proof. split; [reflexivity | lia]. Qed.

Lemma entities_kept_refl (l : list EntityRow) : Forall2 entity_kept l l.
Proof. induction l; constructor; [apply entity_kept_refl | assumption]. Qed.

Lemma entities_kept_trans (l1 : list EntityRow) :
  forall l2 l3, Forall2 entity_kept l1 l2 -> Forall2 entity_kept l2 l3 ->
                Forall2 entity_kept l1 l3.
Proof.
  induction l1 as [|a r IH]; intros l2 l3 H12 H23.
  - inversion H12; subst. inversion H23; subst. constructor.
  - inversion H12 as [|? b ? r2 Hab Hr]; subst.
    inversion H23 as [|? c ? r3 Hbc Hr']; subst.
    constructor; [|eapply IH; eassumption].
    destruct Hab as [E1 L1], Hbc as [E2 L2]. split; [congruence | lia].
Qed.

Lemma bump_mentions_kept (i : string) (l : list EntityRow) :
  Forall2 entity_kept l (bump_mentions i l).
Proof.
  induction l as [|r l IH]; cbn [bump_mentions map]; constructor; [|exact IH].
  destruct (String.eqb (er_id r) i); [|apply entity_kept_refl].
  split; [reflexivity | cbn [er_mention_count]; lia].
Qed.

Lemma extends_refl (s : Store) : extends s s.
Proof.
  repeat split; try (exists []; now rewrite app_nil_r).
  exists (entities s), []. split; [now rewrite app_nil_r | apply entities_kept_refl].
Qed.

Lemma extends_trans (s1 s2 s3 : Store) : extends s1 s2 -> extends s2 s3 -> extends s1 s3.
Proof.
  intros [[c1 Hc1] [[f1 Hf1] [[r1 Hr1] [k1 [a1 [He1 Hk1]]]]]]
         [[c2 Hc2] [[f2 Hf2] [[r2 Hr2] [k2 [a2 [He2 Hk2]]]]]].
  split; [exists (c1 ++ c2); now rewrite Hc2, Hc1, app_assoc|].
  split; [exists (f1 ++ f2); now rewrite Hf2, Hf1, app_assoc|].
  split; [exists (r1 ++ r2); now rewrite Hr2, Hr1, app_assoc|].
  rewrite He1 in Hk2. apply Forall2_app_inv_l in Hk2.
  destruct Hk2 as [k2a [k2b [Hka [Hkb ->]]]].
  exists k2a, (k2b ++ a2). split; [now rewrite He2, app_assoc|].
  eapply entities_kept_trans; eassumption.
Qed.

Section WithEnvironment.

Variable J : Json.
Variable env : Oracle.

Lemma save_entity_extends (w : World) (name : str) (ty : string)
  (m : option (list (string * str))) :
  extends (db w) (db (world_of (save_entity J env w name ty m))).
Proof.
  unfold save_entity.
  destruct (find _ (entities (db w))) as [existing|]; cbn [world_of db advance].
  - repeat split; try (exists []; now rewrite app_nil_r).
    cbn [set_entities entities].
    exists (bump_mentions (er_id existing) (entities (db w))), [].
    split; [now rewrite app_nil_r | apply bump_mentions_kept].
  - destruct (existsb _ (entities (db w))); cbn [world_of db advance];
      [apply extends_refl|].
    repeat split; try (exists []; now rewrite app_nil_r).
    cbn [set_entities entities]. eexists (entities (db w)), _.
    split; [reflexivity | apply entities_kept_refl].
Qed.

Lemma save_relationship_extends (w : World) (e1 e2 t : string) (c : option str) :
  extends (db w) (db (save_relationship w e1 e2 t c)).
Proof.
  unfold save_relationship. cbn [db].
  split; [exists []; now rewrite app_nil_r|].
  split; [exists []; now rewrite app_nil_r|].
  split; [eexists; reflexivity|].
  exists (entities (db w)), []. split; [now rewrite app_nil_r | apply entities_kept_refl].
Qed.

Lemma save_conversation_extends (w : World) (sid : string) (um ar : str)
  (es : option (list Entity)) (ch : option string) :
  extends (db w) (db (world_of (save_conversation J env w sid um ar es ch))).
Proof.
  unfold save_conversation.
  destruct (existsb _ (conversations (db w))); cbn [world_of db advance];
    [apply extends_refl|].
  split; [eexists; reflexivity|].
  split; [exists []; now rewrite app_nil_r|].
  split; [exists []; now rewrite app_nil_r|].
  exists (entities (db w)), []. split; [now rewrite app_nil_r | apply entities_kept_refl].
Qed.

Lemma save_file_extends (w : World) (on sp : str) (c h : string)
  (m : option (list (string * str))) (ch : option string) :
  extends (db w) (db (world_of (save_file J env w on sp c h m ch))).
Proof.
  unfold save_file.
  destruct (existsb _ (files (db w))); cbn [world_of db advance]; [apply extends_refl|].
  split; [exists []; now rewrite app_nil_r|].
  split; [eexists; reflexivity|].
  split; [exists []; now rewrite app_nil_r|].
  exists (entities (db w)), []. split; [now rewrite app_nil_r | apply entities_kept_refl].
Qed.

Lemma relate_to_others_extends (others : list Entity) :
  forall (w : World) (i : string) (e : Entity) (msg : str),
    extends (db w) (db (ADAM.relate_to_others w i e others msg)).
Proof.
  unfold ADAM.relate_to_others.
  induction others as [|o r IH]; intros w i e msg; cbn [fold_left]; [apply extends_refl|].
  eapply extends_trans; [|apply IH].
  destruct (negb (entity_eqb o e)); [apply save_relationship_extends | apply extends_refl].
Qed.

Lemma update_loop_extends (todo ents : list Entity) (msg : str) :
  forall w, extends (db w) (db (world_of (ADAM.update_loop J env w todo ents msg))).
Proof.
  induction todo as [|e rest IH]; intros w; [apply extends_refl|].
  cbn [ADAM.update_loop].
  pose proof (save_entity_extends w (ent_name e) (ent_type e) (Some (ent_metadata e))) as Hs.
  destruct (save_entity J env w (ent_name e) (ent_type e) (Some (ent_metadata e)))
    as [i w' | w']; cbn [bind world_of] in *; [|exact Hs].
  eapply extends_trans; [exact Hs|].
  eapply extends_trans; [apply relate_to_others_extends | apply IH].
Qed.

Lemma process_message_extends (w : World) (msg : str) (sid : option string) :
  extends (db w) (db (world_of (ADAM.process_message J env w msg sid))).
Proof.
  unfold ADAM.process_message.
  set (w0 := snd (if truthy_string sid then _ else _)).
  assert (H0 : db w0 = db w) by (subst w0; destruct (truthy_string sid); reflexivity).
  clearbody w0. rewrite <- H0.
  set (sid0 := fst (if truthy_string sid then _ else _)). clearbody sid0.
  match goal with
  | |- context [save_conversation J env w0 ?a ?b ?c ?d ?e] =>
    pose proof (save_conversation_extends w0 a b c d e) as Hc;
    destruct (save_conversation J env w0 a b c d e) as [cid w1 | w1]
  end; cbn [bind world_of] in *; [|exact Hc].
  eapply extends_trans; [exact Hc|].
  unfold ADAM._update_entities_and_relationships.
  match goal with
  | |- context [ADAM.update_loop J env w1 ?t ?es ?m] =>
    pose proof (update_loop_extends t es m w1) as Hu;
    destruct (ADAM.update_loop J env w1 t es m) as [x w2 | w2]
  end; cbn [bind world_of] in *; exact Hu.
Qed.

Lemma run_op_extends (w : World) (o : Op) : extends (db w) (db (run_op J env w o)).
Proof.
  destruct o; cbn [run_op].
  - apply save_conversation_extends.
  - apply save_entity_extends.
  - apply save_file_extends.
  - apply save_relationship_extends.
  - apply process_message_extends.
Qed.

(** The identifier that [save_entity] returns is that of a row of the name
    and type. *)
Lemma save_entity_returns_row (w w' : World) (name : str) (ty : string)
  (m : option (list (string * str))) (i : string) :
  save_entity J env w name ty m = Ok i w' ->
  exists row, In row (entities (db w'))
              /\ er_id row = i /\ er_name row = name /\ er_type row = ty
              /\ find (same_name_type name ty) (entities (db w')) = Some row.
Proof.
  unfold save_entity.
  destruct (find (same_name_type name ty) (entities (db w))) as [existing|] eqn:Hfind.
  - intros H. inversion H; subst. cbn [db advance set_entities entities].
    destruct (find_some _ _ Hfind) as [Hin Hsame].
    apply StoreFacts.same_name_type_eq in Hsame. unfold entity_key in Hsame.
    injection Hsame as Hn Ht. subst name ty.
    set (f := fun r : EntityRow =>
                if String.eqb (er_id r) (er_id existing)
                then {| er_id := er_id r; er_name := er_name r; er_type := er_type r;
                        er_metadata_json := er_metadata_json r;
                        er_first_seen := er_first_seen r;
                        er_mention_count := (er_mention_count r + 1)%Z |}
                else r).
    assert (Hf : forall r, er_id (f r) = er_id r /\ er_name (f r) = er_name r
                           /\ er_type (f r) = er_type r).
    { intros r. unfold f. destruct (String.eqb (er_id r) (er_id existing)); auto. }
    assert (Hfm : forall l, find (same_name_type (er_name existing) (er_type existing)) (map f l)
                            = option_map f (find (same_name_type (er_name existing)
                                                                  (er_type existing)) l)).
    { induction l as [|x l IH]; [reflexivity|]. cbn [map find].
      assert (Hx : same_name_type (er_name existing) (er_type existing) (f x)
                   = same_name_type (er_name existing) (er_type existing) x).
      { unfold same_name_type. destruct (Hf x) as [_ [-> ->]]. reflexivity. }
      rewrite Hx. destruct (same_name_type _ _ x); [reflexivity | exact IH]. }
    exists (f existing). destruct (Hf existing) as [H1 [H2 H3]].
    split; [now apply (in_map f)|]. split; [assumption|]. split; [assumption|].
    split; [assumption|].
    change (bump_mentions (er_id existing) (entities (db w)))
      with (map f (entities (db w))).
    now rewrite Hfm, Hfind.
  - destruct (existsb _ (entities (db w))); [discriminate|].
    intros H. inversion H; subst. cbn [db advance set_entities entities].
    eexists. split; [apply in_or_app; right; now left|].
    repeat split.
    apply PathMore.find_first; [|unfold same_name_type; cbn;
                                  now rewrite str_eqb_refl, String.eqb_refl].
    intros x Hx. exact (find_none _ _ Hfind x Hx).
Qed.

End WithEnvironment.

End KeepFacts.

(** X18. No operation deletes or rewrites what is stored: after any sequence
    of store writes and [process_message] calls, the conversations, files
    and relationships of before are the first rows of the tables, unchanged,
    and so are the entities, but for mention counts, which can only have
    grown. *)
Theorem operations_keep_what_is_stored (J : Json) (env : Oracle) (ops : list Op)
  (w : World) :
  extends (db w) (db (fold_left (run_op J env) ops w)).
Proof.
  revert w. induction ops as [|o r IH]; intros w; [apply KeepFacts.extends_refl|].
  cbn [fold_left]. eapply KeepFacts.extends_trans; [apply KeepFacts.run_op_extends | apply IH].
Qed.

(** X19. The identifier that [save_entity] returns is the [id] of the row of
    that name and type, and it is stable: a later call for the same name and
    type, with any metadata, returns the same identifier. *)
Theorem save_entity_identifier_stable (J : Json) (env : Oracle) (w w' : World)
  (name : str) (ty : string) (m : option (list (string * str))) (i : string) :
  DatabaseManager.save_entity J env w name ty m = Ok i w' ->
  (exists row, In row (entities (db w'))
               /\ er_id row = i /\ er_name row = name /\ er_type row = ty)
  /\ forall m', exists w'', DatabaseManager.save_entity J env w' name ty m' = Ok i w''.
Proof.
  intros H. apply KeepFacts.save_entity_returns_row in H.
  destruct H as [row [Hin [Hid [Hn [Ht Hfind]]]]].
  split; [exists row; auto|].
  intros m'. unfold DatabaseManager.save_entity. rewrite Hfind, Hid.
  eexists. reflexivity.
Qed.

Lemma save_entity_identifier_stable_witness :
  exists i w',
    DatabaseManager.save_entity demo_json demo_oracle demo_world (u "María") "person" None
    = Ok i w'
    /\ (exists row, In row (entities (db w'))
                    /\ er_id row = i /\ er_name row = u "María"
                    /\ er_type row = "person"%string)
    /\ forall m', exists w'',
         DatabaseManager.save_entity demo_json demo_oracle w' (u "María") "person" m'
         = Ok i w''.
Proof.
  eexists. eexists.
  assert (H : DatabaseManager.save_entity demo_json demo_oracle demo_world (u "María")
                "person" None
              = Ok (uuid4 demo_oracle (tick demo_world))
                   (world_of (DatabaseManager.save_entity demo_json demo_oracle demo_world
                                (u "María") "person" None)))
    by reflexivity.
  split; [exact H|].
  exact (save_entity_identifier_stable demo_json demo_oracle _ _ _ _ _ _ H).
Defined.

(** ** The orchestrator *)

Module ProcessFacts.
Import DatabaseManager.

Section WithEnvironment.

Variable J : Json.
Variable env : Oracle.

(** [process_message], step by step. *)
Lemma process_message_steps (w : World) (msg : str) (sid : option string) :
  let w0 := world_at_save w sid in
  let ents := EntityRecognizer.extract_entities msg in
  let category := ContentCategorizer.categorize_content msg ents in
  let relevant_context :=
    MemorySystem.get_relevant_context J (db w0) msg ents
      (Some (session_used env w sid)) in
  let text := ADAM._generate_contextual_response msg ents relevant_context category in
  ADAM.process_message J env w msg sid
  = bind (save_conversation J env w0 (session_used env w sid) msg text (Some ents) None)
         (fun cid w1 =>
            bind (ADAM._update_entities_and_relationships J env w1 ents msg)
                 (fun _ w2 =>
                    Ok {| ADAM.response := text;
                          ADAM.reply_session_id := session_used env w sid;
                          ADAM.conversation_id := cid; ADAM.reply_entities := ents;
                          ADAM.reply_category := category;
                          ADAM.context_used := relevant_context;
                          ADAM.insights := Coach.generate_insights msg ents relevant_context;
                          ADAM.timestamp := now env (tick w2) |}
                       (advance w2 (db w2)))).
Proof.
  unfold ADAM.process_message, world_at_save, session_used.
  destruct sid as [[|a r]|]; reflexivity.
Qed.

Lemma save_entity_conversations (w : World) (name : str) (ty : string)
  (m : option (list (string * str))) :
  conversations (db (world_of (save_entity J env w name ty m))) = conversations (db w).
Proof.
  unfold save_entity. destruct (find _ _); [reflexivity|].
  destruct (existsb _ _); reflexivity.
Qed.

Lemma relate_to_others_conversations (others : list Entity) :
  forall (w : World) (i : string) (e : Entity) (msg : str),
    conversations (db (ADAM.relate_to_others w i e others msg)) = conversations (db w).
Proof.
  unfold ADAM.relate_to_others.
  induction others as [|o r IH]; intros w i e msg; cbn [fold_left]; [reflexivity|].
  rewrite IH. destruct (negb (entity_eqb o e)); reflexivity.
Qed.

Lemma update_loop_conversations (todo ents : list Entity) (msg : str) :
  forall w,
    conversations (db (world_of (ADAM.update_loop J env w todo ents msg)))
    = conversations (db w).
Proof.
  induction todo as [|e rest IH]; intros w; [reflexivity|].
  cbn [ADAM.update_loop].
  pose proof (save_entity_conversations w (ent_name e) (ent_type e)
                (Some (ent_metadata e))) as Hs.
  destruct (save_entity J env w (ent_name e) (ent_type e) (Some (ent_metadata e)))
    as [i w' | w']; cbn [bind world_of] in *; [|exact Hs].
  now rewrite IH, relate_to_others_conversations.
Qed.

(** Entities found in the store stay there. *)
Lemma save_entity_keeps_entity (w : World) (name name' : str) (ty ty' : string)
  (m : option (list (string * str))) :
  has_entity (db w) name' ty' ->
  has_entity (db (world_of (save_entity J env w name ty m))) name' ty'.
Proof.
  intros [row [Hin [Hn Ht]]].
  destruct (KeepFacts.save_entity_extends J env w name ty m)
    as [_ [_ [_ [kept [added [He Hk]]]]]].
  unfold has_entity. rewrite He.
  assert (H : exists row', In row' kept /\ entity_kept row row').
  { clear He. induction Hk as [|a b l l' Hab Hl IH]; [contradiction|].
    destruct Hin as [<- | Hin].
    - exists b. split; [now left | exact Hab].
    - destruct (IH Hin) as [row' [H1 H2]]. exists row'. split; [now right | exact H2]. }
  destruct H as [row' [Hin' [Hstatic _]]].
  exists row'. split; [apply in_or_app; now left|].
  unfold entity_static in Hstatic. inversion Hstatic. split; congruence.
Qed.

Lemma relate_keeps_entity (w : World) (i : string) (e : Entity) (others : list Entity)
  (msg : str) (name : str) (ty : string) :
  has_entity (db w) name ty ->
  has_entity (db (ADAM.relate_to_others w i e others msg)) name ty.
Proof.
  unfold has_entity. now rewrite StoreFacts.relate_to_others_entities.
Qed.

Lemma update_loop_keeps_entity (todo ents : list Entity) (msg : str) (name : str)
  (ty : string) :
  forall w, has_entity (db w) name ty ->
            has_entity (db (world_of (ADAM.update_loop J env w todo ents msg))) name ty.
Proof.
  induction todo as [|e rest IH]; intros w H; [exact H|].
  cbn [ADAM.update_loop].
  pose proof (save_entity_keeps_entity w (ent_name e) name (ent_type e) ty
                (Some (ent_metadata e)) H) as Hs.
  destruct (save_entity J env w (ent_name e) (ent_type e) (Some (ent_metadata e)))
    as [i w' | w']; cbn [bind world_of] in *; [|exact Hs].
  apply IH. now apply relate_keeps_entity.
Qed.

Lemma update_loop_stores_entities (todo ents : list Entity) (msg : str) :
  forall w w',
    ADAM.update_loop J env w todo ents msg = Ok tt w' ->
    forall e, In e todo -> has_entity (db w') (ent_name e) (ent_type e).
Proof.
  induction todo as [|x rest IH]; intros w w' H e He; [contradiction|].
  cbn [ADAM.update_loop] in H.
  destruct (save_entity J env w (ent_name x) (ent_type x) (Some (ent_metadata x)))
    as [i w1 | w1] eqn:Hs; cbn [bind] in H; [|discriminate].
  destruct He as [<- | He].
  - apply KeepFacts.save_entity_returns_row in Hs.
    destruct Hs as [row [Hin [_ [Hn [Ht _]]]]].
    pose proof (update_loop_keeps_entity rest ents msg (ent_name x) (ent_type x)
                  (ADAM.relate_to_others w1 i x ents msg)) as Hkeep.
    rewrite H in Hkeep. cbn [world_of] in Hkeep. apply Hkeep.
    apply relate_keeps_entity. exists row. auto.
  - eapply IH; eassumption.
Qed.

End WithEnvironment.

End ProcessFacts.

(** X20. [process_message] stores the conversation before it updates the
    entities: when the conversation id it draws is new, the store ends with
    one more conversation, holding the message as given, the session id
    given (or the one drawn when none was given) and the entities as JSON,
    whether the entity update then succeeds or raises; a reply carries the
    id of that row. *)
Theorem process_message_stores_conversation (J : Json) (env : Oracle) (w : World)
  (user_message : str) (session_id : option string) :
  let w0 := world_at_save w session_id in
  let result := ADAM.process_message J env w user_message session_id in
  ~ In (uuid4 env (tick w0)) (map c_id (conversations (db w))) ->
  exists row,
    conversations (db (world_of result)) = conversations (db w) ++ [row]
    /\ c_id row = uuid4 env (tick w0)
    /\ c_session_id row = session_used env w session_id
    /\ c_user_message row = user_message
    /\ c_entities_json row
       = match EntityRecognizer.extract_entities user_message with
         | [] => None
         | e :: l => Some (json_dumps_entities J (e :: l))
         end
    /\ forall reply w', result = Ok reply w' ->
         ADAM.conversation_id reply = c_id row
         /\ ADAM.reply_session_id reply = c_session_id row.
Proof.
  cbv zeta. intros Hfresh.
  rewrite ProcessFacts.process_message_steps. cbv zeta.
  assert (Hdb : db (world_at_save w session_id) = db w)
    by (unfold world_at_save; destruct (DatabaseManager.truthy_string session_id);
        reflexivity).
  unfold DatabaseManager.save_conversation at 1 2.
  rewrite Hdb, (ConversationFacts.id_new _ _ Hfresh). cbn [bind].
  eexists. split.
  { unfold ADAM._update_entities_and_relationships.
    match goal with
    | |- context [ADAM.update_loop J env ?w1 ?t ?es ?m] =>
      pose proof (ProcessFacts.update_loop_conversations J env t es m w1) as Hu;
      destruct (ADAM.update_loop J env w1 t es m) as [x w2 | w2]
    end; cbn [bind world_of DatabaseManager.advance db] in *; rewrite Hu; reflexivity. }
  split; [reflexivity|]. split; [reflexivity|]. split; [reflexivity|].
  split; [reflexivity|].
  - intros reply w'.
    unfold ADAM._update_entities_and_relationships.
    match goal with
    | |- context [ADAM.update_loop J env ?w1 ?t ?es ?m] =>
      destruct (ADAM.update_loop J env w1 t es m) as [x w2 | w2]
    end; cbn [bind]; [|discriminate].
    intros H. inversion H. split; reflexivity.
Qed.

Lemma process_message_stores_conversation_witness :
  ~ In (uuid4 demo_oracle (tick (world_at_save demo_world None)))
       (map c_id (conversations (db demo_world)))
  /\ exists row,
       conversations
         (db (world_of (ADAM.process_message demo_json demo_oracle demo_world
                          two_entity_message None)))
       = conversations (db demo_world) ++ [row]
       /\ c_user_message row = two_entity_message.
Proof.
  assert (H : ~ In (uuid4 demo_oracle (tick (world_at_save demo_world None)))
                   (map c_id (conversations (db demo_world))))
    by (vm_compute; intros [H | []]; discriminate).
  split; [exact H|].
  destruct (process_message_stores_conversation demo_json demo_oracle demo_world
              two_entity_message None H) as [row [H1 [_ [_ [H2 _]]]]].
  exists row. split; assumption.
Defined.

(** X21. After a reply of [process_message], every entity of the reply has a
    row of its name and type in the store. *)
Theorem process_message_stores_entities (J : Json) (env : Oracle) (w w' : World)
  (user_message : str) (session_id : option string) (reply : ADAM.Reply) :
  ADAM.process_message J env w user_message session_id = Ok reply w' ->
  ADAM.reply_entities reply = EntityRecognizer.extract_entities user_message
  /\ forall e, In e (ADAM.reply_entities reply) ->
               has_entity (db w') (ent_name e) (ent_type e).
Proof.
  rewrite ProcessFacts.process_message_steps. cbv zeta.
  destruct (DatabaseManager.save_conversation J env _ _ _ _ _ _) as [cid w1 | w1];
    cbn [bind]; [|discriminate].
  unfold ADAM._update_entities_and_relationships.
  match goal with
  | |- context [ADAM.update_loop J env w1 ?t ?es ?m] =>
    pose proof (ProcessFacts.update_loop_stores_entities J env t es m w1) as Hu;
    destruct (ADAM.update_loop J env w1 t es m) as [[] w2 | w2]
  end; cbn [bind]; [|discriminate].
  intros H. inversion H; subst. cbn [ADAM.reply_entities DatabaseManager.advance db].
  split; [reflexivity|]. intros e He. exact (Hu w2 eq_refl e He).
Qed.

Lemma process_message_stores_entities_witness :
  exists reply w',
    ADAM.process_message demo_json demo_oracle demo_world two_entity_message None
    = Ok reply w'
    /\ ADAM.reply_entities reply = EntityRecognizer.extract_entities two_entity_message
    /\ forall e, In e (ADAM.reply_entities reply) ->
                 has_entity (db w') (ent_name e) (ent_type e).
Proof.
  destruct (ADAM.process_message demo_json demo_oracle demo_world two_entity_message None)
    as [reply w' | w'] eqn:H.
  - exists reply, w'. split; [reflexivity|].
    exact (process_message_stores_entities demo_json demo_oracle demo_world w'
             two_entity_message None reply H).
  - vm_compute in H. discriminate.
Defined.

(** ** Memory: the searches *)

Module SearchFacts.


Lemma any_in_nil (s : str) : any_in [] s = false.
Proof. reflexivity. Qed.

End SearchFacts.




(** X25. [get_memory_summary] reports at most 50 conversations, no category,
    and as top entities the 10 first of the ranking of all stored entities
    by mention count (all of them when there are no more than 10). *)
Theorem get_memory_summary_top_entities (J : Json) (loads : str -> list (string * str))
  (s : Store) (session_id : option string) (days : Z) :
  let summary := MemoryQueries.get_memory_summary J loads s session_id days in
  MemoryQueries.recent_conversations summary <= 50
  /\ MemoryQueries.categories_found summary = []
  /\ map ev_row (MemoryQueries.top_entities summary)
     = firstn 10 (sort_by StoreQueries.ranks_before (entities s))
  /\ StronglySorted (fun a b => StoreQueries.ranks_before a b = true)
       (map ev_row (MemoryQueries.top_entities summary))
  /\ (List.length (entities s) <= 10 ->
      Permutation (map ev_row (MemoryQueries.top_entities summary)) (entities s)).
Proof.
  cbv zeta. unfold MemoryQueries.get_memory_summary.
  cbn [MemoryQueries.recent_conversations MemoryQueries.categories_found
         MemoryQueries.top_entities].
  split; [apply MemoryFacts.history_length|]. split; [reflexivity|].
  assert (Hrows : map ev_row (firstn 10 (StoreQueries.get_entities loads s None 20))
                  = firstn 10 (sort_by StoreQueries.ranks_before (entities s))).
  { rewrite <- firstn_map, QueryFacts.entity_rows. cbn [rows_of_type].
    now rewrite firstn_firstn. }
  rewrite Hrows. split; [reflexivity|]. split.
  - apply OrderFacts.sorted_firstn.
    apply OrderFacts.sort_by_sorted;
      [apply OrderFacts.ranks_before_total | apply OrderFacts.ranks_before_trans].
  - intros Hlen. apply QueryFacts.firstn_all_perm; [apply OrderFacts.sort_by_perm | exact Hlen].
Qed.

(** X26. The response text is never empty, whatever the message, the
    entities, the context and the category. *)
Theorem response_never_empty (user_message : str) (ents : list Entity)
  (relevant_context : list Conversation) (category : string) :
  ADAM._generate_contextual_response user_message ents relevant_context category <> [].
Proof.
  unfold ADAM._generate_contextual_response, ADAM._generate_basic_response.
  set (summary := ADAM._build_context_summary relevant_context ents). clearbody summary.
  assert (Hlit : forall (a : ascii) (s : string) (rest : str),
            (N_of_ascii a <? 128)%N = true -> u (String a s) ++ rest <> [])
    by (intros a s rest Ha; unfold u; cbn [bytes_of_string utf8_decode];
        rewrite Ha; discriminate).
  assert (Hlit2 : forall (s : string) (rest : str),
            u (String "194" (String "161" s)) ++ rest <> [])
    by (intros s rest; discriminate).
  destruct (any_in _ (lower user_message)).
  { unfold ADAM._generate_greeting_response.
    destruct summary; [rewrite <- (app_nil_r (u _))|]; apply Hlit2. }
  destruct (any_in _ (lower user_message)).
  { unfold ADAM._generate_memory_response.
    destruct ents; [rewrite <- (app_nil_r (u _)); now apply Hlit|].
    destruct summary; [rewrite <- (app_nil_r (u _)); now apply Hlit|].
    destruct (filter _ _); [rewrite <- (app_nil_r (u _)) | ]; now apply Hlit. }
  destruct (any_in _ (lower user_message)).
  { unfold ADAM._generate_storage_response. now apply Hlit. }
  unfold ADAM._generate_general_response.
  destruct summary; [rewrite <- (app_nil_r (u _))|]; now apply Hlit.
Qed.

Module ReplyFacts.
Import ContentCategorizer.

Lemma max_key_is_a_key (rest : list (string * Q)) :
  forall first : string * Q, In (max_key first rest) (map fst (first :: rest)).
Proof.
  unfold max_key. induction rest as [|x r IH]; intros first; [now left|].
  cbn [fold_left]. destruct (Qle_bool (snd x) (snd first)).
  - destruct (IH first) as [H | H]; [now left | right; now right].
  - right. apply IH.
Qed.

Lemma categorize_content_range (text : str) (ents : list Entity) :
  In (categorize_content text ents) ("general"%string :: map fst categories).
Proof.
  unfold categorize_content, categorize_with.
  assert (Hkeys : map fst (scores_of categories text ents) = map fst categories)
    by (unfold scores_of; rewrite map_map; reflexivity).
  destruct (scores_of categories text ents) as [|first rest]; [now left|].
  destruct (Qeq_bool _ 0); [now left|].
  right. rewrite <- Hkeys. apply max_key_is_a_key.
Qed.

End ReplyFacts.

(** X27. Every reply of [process_message] carries the session id given (or
    the one drawn), the entities of the message, a category that is
    ["general"] or a registered one, at most 10 context items and at most 5
    insights. *)
Theorem process_message_reply_bounds (J : Json) (env : Oracle) (w w' : World)
  (user_message : str) (session_id : option string) (reply : ADAM.Reply) :
  ADAM.process_message J env w user_message session_id = Ok reply w' ->
  ADAM.reply_session_id reply = session_used env w session_id
  /\ ADAM.reply_entities reply = EntityRecognizer.extract_entities user_message
  /\ In (ADAM.reply_category reply)
        ("general"%string :: map fst ContentCategorizer.categories)
  /\ List.length (ADAM.context_used reply) <= 10
  /\ List.length (ADAM.insights reply) <= 5.
Proof.
  rewrite ProcessFacts.process_message_steps. cbv zeta.
  destruct (DatabaseManager.save_conversation J env _ _ _ _ _ _) as [cid w1 | w1];
    cbn [bind]; [|discriminate].
  destruct (ADAM._update_entities_and_relationships J env w1 _ _) as [x w2 | w2];
    cbn [bind]; [|discriminate].
  intros H. inversion H; subst.
  cbn [ADAM.reply_session_id ADAM.reply_entities ADAM.reply_category ADAM.context_used
         ADAM.insights].
  split; [reflexivity|]. split; [reflexivity|].
  split; [apply ReplyFacts.categorize_content_range|].
  split.
  - unfold MemorySystem.get_relevant_context. apply firstn_le_length.
  - unfold Coach.generate_insights. apply firstn_le_length.
Qed.

Lemma process_message_reply_bounds_witness :
  exists reply w',
    ADAM.process_message demo_json demo_oracle demo_world scenario_message
      (Some "s1"%string) = Ok reply w'
    /\ ADAM.reply_session_id reply = "s1"%string
    /\ List.length (ADAM.context_used reply) <= 10
    /\ List.length (ADAM.insights reply) <= 5.
Proof.
  destruct (ADAM.process_message demo_json demo_oracle demo_world scenario_message
              (Some "s1"%string)) as [reply w' | w'] eqn:H.
  - exists reply, w'. split; [reflexivity|].
    destruct (process_message_reply_bounds demo_json demo_oracle demo_world w'
                scenario_message (Some "s1"%string) reply H) as [H1 [_ [_ [H4 H5]]]].
    split; [exact H1|]. split; assumption.
  - vm_compute in H. discriminate.
Defined.
